(** * Shinobi monitoring agent: a shallow embedding of its metric calculator,
    driver loop and host-ping tracker.

    Sources embedded here:
    - [src/Shinobi.py]: [process_monitors], [trigger_apps_script], [main];
    - [src/shinobi_deep.py]: [process_monitors];
    - [src/server_check.py]: [ping_server], [log_server_status] (per host).

    Modelling choices, common to the whole file:
    - JSON values decoded by [resp.json()] are the inductive [json]; a Python
      [dict] read from JSON is an association list, [dict.get] returns the
      binding json.loads keeps (the last one for a repeated key);
    - Python exceptions are the [Raise] case of [pyresult];
    - Python floats holding percentages and durations are exact rationals
      ([Q]); [round(x, 2)] rounds the exact value to hundredths, ties to even;
    - wall-clock readings are integer seconds: [time.time()] as [Z], a local
      datetime as seconds since the epoch in the configured time zone, and the
      strings produced by [strftime("%Y-%m-%d")] / [strftime("%H:%M:%S")] as
      the day number and the second of the day they encode. *)

From Stdlib Require Import ZArith QArith List Bool Ascii String Lia.
Import ListNotations.
Open Scope Z_scope.
#[local] Set Warnings "-register-all".

(* ------------------------------------------------------------------------- *)
(** ** Python values and results *)

Inductive json : Type :=
| JNull
| JBool (b : bool)
| JNum (z : Z)
| JStr (s : string)
| JArr (xs : list json)
| JObj (kvs : list (string * json)).

(** [d.get(k)] on a decoded JSON object. *)
Definition dget (k : string) (kvs : list (string * json)) : option json :=
  match find (fun kv => String.eqb (fst kv) k) (rev kvs) with
  | Some (_, v) => Some v
  | None => None
  end.

(** [d.get(k, default)]. *)
Definition dget_default (k : string) (kvs : list (string * json)) (dflt : json) : json :=
  match dget k kvs with Some v => v | None => dflt end.

(** Python [v == "s"] where [v] is the result of a [get]: only a JSON string
    with the same characters compares equal to a [str]. *)
Definition opt_is_str (v : option json) (s : string) : bool :=
  match v with Some (JStr s') => String.eqb s' s | _ => false end.

(** Python [x in xs] for a string [x] and a list of strings. *)
Definition str_in (x : string) (xs : list string) : bool :=
  existsb (String.eqb x) xs.

Inductive exn : Type :=
| ZeroDivisionError
| AttributeError
| TypeError.

Inductive pyresult (A : Type) : Type :=
| POk (a : A)
| Raise (e : exn).
Arguments POk {A} a.
Arguments Raise {A} e.

Definition pbind {A B} (m : pyresult A) (k : A -> pyresult B) : pyresult B :=
  match m with POk a => k a | Raise e => Raise e end.

Definition pmap {A B} (f : A -> B) (m : pyresult A) : pyresult B :=
  pbind m (fun a => POk (f a)).

Notation "x <- m ;; k" := (pbind m (fun x => k))
  (at level 61, m at next level, right associativity).

(** Python's true division [a / b] on integers. *)
Definition py_truediv (a b : Z) : pyresult Q :=
  if b =? 0 then Raise ZeroDivisionError else POk (inject_Z a / inject_Z b)%Q.

(** Round half to even of an exact rational. *)
Definition round_half_even (q : Q) : Z :=
  let n := Qnum q in
  let d := Zpos (Qden q) in
  let f := n / d in
  let r := n mod d in
  if 2 * r <? d then f
  else if d <? 2 * r then f + 1
  else if Z.even f then f else f + 1.

(** Python [round(x, 2)]. *)
Definition round2 (q : Q) : Q := round_half_even (q * 100) # 100.

(** [strftime] fields of a local time given in seconds. *)
Definition date_of (now_local : Z) : Z := now_local / 86400.
Definition time_of (now_local : Z) : Z := now_local mod 86400.

(* ------------------------------------------------------------------------- *)
(** ** [src/Shinobi.py] *)

Module Shinobi.

(** The fields of [Config] the embedded functions read. *)
Record Config : Type := mkConfig {
  monitor_ids : list string;
  max_consecutive_failures : Z;
  apps_script_url : string;
  notification_cooldown : Z
}.

(** One entry of [monitor_statuses]. *)
Record status : Type := mkStatus {
  st_id : string;
  st_name : json;
  st_recording : bool;
  st_operational : bool;
  st_mode : json;
  st_status : json
}.

(** The [metrics] dictionary. *)
Record metrics : Type := mkMetrics {
  m_date : Z;
  m_time : Z;
  total_cameras : Z;
  recording : Z;
  not_recording : Z;
  percentage_recording : Q;
  threshold_met : string
}.

(** The returned dictionary: [metrics = None] stands for the empty dict
    [{}] and [missing_monitors = None] for an absent key. *)
Record processed : Type := mkProcessed {
  p_monitors : list status;
  p_metrics : option metrics;
  p_missing : option (list string)
}.

Definition mk_status (mid : string) (kvs : list (string * json)) : status :=
  let operational :=
    opt_is_str (dget "mode" kvs) "record" && opt_is_str (dget "status" kvs) "Recording" in
  {| st_id := mid;
     st_name := dget_default "name" kvs (JStr "Unknown");
     st_recording := opt_is_str (dget "mode" kvs) "record";
     st_operational := operational;
     st_mode := dget_default "mode" kvs (JStr "Unknown");
     st_status := dget_default "status" kvs (JStr "Unknown") |}.

(** The [for monitor in monitors_data] loop: returns [seen_ids] (most recent
    first) and [monitor_statuses] (in order). *)
Fixpoint scan (ids seen : list string) (recs : list json)
  : pyresult (list string * list status) :=
  match recs with
  | [] => POk (seen, [])
  | JObj kvs :: rest =>
      match dget "mid" kvs with
      | Some (JStr mid) =>
          if str_in mid ids && negb (str_in mid seen) then
            r <- scan ids (mid :: seen) rest ;;
            POk (fst r, mk_status mid kvs :: snd r)
          else scan ids seen rest
      | _ => scan ids seen rest
      end
  | _ :: _ => Raise AttributeError      (* [monitor.get] on a non-dict *)
  end.

Definition count_operational (sts : list status) : Z :=
  Z.of_nat (List.length (filter st_operational sts)).

Definition compute_percentage (recording_count total : Z) : pyresult Q :=
  if 0 <? total then
    q <- py_truediv recording_count total ;;
    POk (round2 (q * 100))
  else POk 0%Q.

Definition process_monitors (monitors_data : json) (config : Config) (now_local : Z)
  : pyresult processed :=
  match monitors_data with
  | JArr ((_ :: _) as recs) =>
      r <- scan (monitor_ids config) [] recs ;;
      let seen_ids := fst r in
      let monitor_statuses := snd r in
      let missing := filter (fun mid => negb (str_in mid seen_ids)) (monitor_ids config) in
      let total := Z.of_nat (List.length (monitor_ids config)) in
      let rc := count_operational monitor_statuses in
      pct <- compute_percentage rc total ;;
      POk {| p_monitors := monitor_statuses;
             p_metrics := Some {| m_date := date_of now_local;
                                  m_time := time_of now_local;
                                  total_cameras := total;
                                  recording := rc;
                                  not_recording := total - rc;
                                  percentage_recording := pct;
                                  threshold_met := if Qle_bool 75 pct then "Yes" else "No" |};
             p_missing := Some missing |}
  | _ => POk {| p_monitors := []; p_metrics := None; p_missing := None |}
  end.

End Shinobi.

(* ------------------------------------------------------------------------- *)
(** ** [src/Shinobi.py], [main]: the driver loop

    One iteration of [while not shutdown] is [cycle]. Its environment
    ([cycle_env]) supplies what the iteration observes from the outside:
    the string returned by [api.health_check()], [time.time()] at line 445,
    the outcome of each HTTP POST made by [trigger_apps_script], the value
    returned by [api.get_all_monitors()] ([None] as [None]) and the local
    clock read by [process_monitors]. The outputs are the effects on the
    outside world, in order. The [except requests.RequestException] branch
    is not modelled: every call in the [try] block catches
    [RequestException] itself. [sys.exit(1)] raises [SystemExit], which
    neither [except] clause catches, so it ends the process. *)

Module ShinobiMain.
Import Shinobi.

Inductive message : Type :=
| DownAlert          (* "Shinobi server at ... is down (Status: ...)" *)
| ExitNotice.        (* "... after N attempts. Exiting script." *)

Inductive effect : Type :=
| Post (t : Z) (m : message)   (* [requests.post(config.apps_script_url, ...)] *)
| SaveMetrics                  (* [save_metrics(processed_data, ...)] *)
| AppendRow                    (* [sheets_client.append_row([...])] *)
| Sleep                        (* [time.sleep(...)] *)
| Exit (code : Z).             (* [sys.exit(code)] *)

Record cycle_env : Type := mkEnv {
  env_health : string;
  env_time : Z;
  env_post_ok : bool;
  env_fetch : option json;
  env_local : Z
}.

(** The variables of [main] that live across iterations. *)
Record loop_state : Type := mkState {
  consecutive_failures : Z;
  last_notification_time : Z;
  server_was_up : bool
}.

Definition init_state : loop_state :=
  {| consecutive_failures := 0; last_notification_time := 0; server_was_up := true |}.

Inductive driver : Type :=
| Running (s : loop_state)
| Stopped (code : Z).

(** [trigger_apps_script]: no request when the URL is empty; otherwise one
    POST, whose success is [ok]. *)
Definition trigger_apps_script (config : Config) (ok : bool) (t : Z) (m : message)
  : list effect * bool :=
  if String.eqb (apps_script_url config) "" then ([], false)
  else ([Post t m], ok).

(** Lines 455-460 and 471-476: give up once the counter reaches the maximum. *)
Definition give_up_or_sleep (config : Config) (e : cycle_env) (s : loop_state)
  : driver * list effect :=
  if max_consecutive_failures config <=? consecutive_failures s then
    (Stopped 1, fst (trigger_apps_script config (env_post_ok e) (env_time e) ExitNotice) ++ [Exit 1])
  else (Running s, [Sleep]).

Definition cycle (config : Config) (s : loop_state) (e : cycle_env) : driver * list effect :=
  let current_time := env_time e in
  if negb (String.eqb (env_health e) "OK") then
    let cf := consecutive_failures s + 1 in
    let '(notify_effs, last, was_up) :=
      if server_was_up s
         || (notification_cooldown config <=? current_time - last_notification_time s) then
        let '(effs, ok) := trigger_apps_script config (env_post_ok e) current_time DownAlert in
        (effs, if ok then current_time else last_notification_time s, false)
      else ([], last_notification_time s, server_was_up s) in
    let s1 := {| consecutive_failures := cf; last_notification_time := last;
                 server_was_up := was_up |} in
    let '(d, effs) := give_up_or_sleep config e s1 in
    (d, notify_effs ++ effs)
  else
    let s0 := {| consecutive_failures := 0;
                 last_notification_time := last_notification_time s;
                 server_was_up := true |} in
    match env_fetch e with
    | None =>
        give_up_or_sleep config e
          {| consecutive_failures := consecutive_failures s0 + 1;
             last_notification_time := last_notification_time s0;
             server_was_up := true |}
    | Some monitors_data =>
        match process_monitors monitors_data config (env_local e) with
        | Raise _ => (Running s0, [Sleep])           (* [except Exception] *)
        | POk processed_data =>
            match p_metrics processed_data with
            | Some _ => (Running s0, [SaveMetrics; AppendRow; Sleep])
            | None => (Running s0, [Sleep])
            end
        end
    end.

(** The loop over a finite sequence of iterations. *)
Fixpoint run (config : Config) (d : driver) (envs : list cycle_env) : driver * list effect :=
  match d, envs with
  | Stopped c, _ => (Stopped c, [])
  | Running s, [] => (Running s, [])
  | Running s, e :: rest =>
      let '(d', effs) := cycle config s e in
      let '(d'', effs') := run config d' rest in
      (d'', effs ++ effs')
  end.

End ShinobiMain.

(* ------------------------------------------------------------------------- *)
(** ** [src/shinobi_deep.py], [process_monitors] *)

Module ShinobiDeep.
Import Shinobi.

(** The fields of this variant's [Config] that [process_monitors] reads;
    [threshold_percentage] is checked by [validate_threshold]. *)
Record DeepConfig : Type := mkDeepConfig {
  deep_monitor_ids : list string;
  threshold_percentage : Q
}.

Definition valid_threshold (config : DeepConfig) : Prop :=
  (0 <= threshold_percentage config <= 100)%Q.

(** [list.remove(x)], called only when [x] is in the list. *)
Fixpoint remove_first (x : string) (l : list string) : list string :=
  match l with
  | [] => []
  | y :: ys => if String.eqb x y then ys else y :: remove_first x ys
  end.

(** Python [v in xs] for a decoded JSON value and a list of strings. *)
Definition json_in (v : json) (xs : list string) : bool :=
  match v with JStr s => str_in s xs | _ => false end.

(** The [for monitor in monitors_data] loop, with its [try/except KeyError]:
    returns [missing_monitors], [metrics["recording"]] and
    [monitor_statuses]. *)
Fixpoint dscan (ids missing : list string) (rc : Z) (recs : list json)
  : pyresult (list string * Z * list status) :=
  match recs with
  | [] => POk (missing, rc, [])
  | JObj kvs :: rest =>
      match dget "mid" kvs with
      | None => dscan ids missing rc rest                   (* [KeyError] *)
      | Some (JStr mid) =>
          if negb (str_in mid ids) then dscan ids missing rc rest
          else
            let missing' := if str_in mid missing then remove_first mid missing else missing in
            let st := mk_status mid kvs in
            r <- dscan ids missing' (if st_operational st then rc + 1 else rc) rest ;;
            let '(m, c, sts) := r in POk (m, c, st :: sts)
      | Some _ => dscan ids missing rc rest                 (* not in the ids *)
      end
  | _ :: _ => Raise TypeError        (* [monitor["mid"]] on a non-dict *)
  end.

Definition process_monitors (monitors_data : json) (config : DeepConfig) (now_local : Z)
  : pyresult processed :=
  let ids := deep_monitor_ids config in
  let total := Z.of_nat (List.length ids) in
  let initial := {| m_date := date_of now_local; m_time := time_of now_local;
                    total_cameras := total; recording := 0; not_recording := total;
                    percentage_recording := 0%Q; threshold_met := "No" |} in
  match monitors_data with
  | JArr recs =>
      r <- dscan ids ids 0 recs ;;
      let '(missing, rc, sts) := r in
      let base := {| m_date := date_of now_local; m_time := time_of now_local;
                     total_cameras := total; recording := rc; not_recording := total - rc;
                     percentage_recording := 0%Q; threshold_met := "No" |} in
      if 0 <? total then
        q <- py_truediv rc total ;;
        let pct := round2 (q * 100) in
        POk {| p_monitors := sts;
               p_metrics := Some {| m_date := m_date base; m_time := m_time base;
                                    total_cameras := total; recording := rc;
                                    not_recording := total - rc;
                                    percentage_recording := pct;
                                    threshold_met :=
                                      if Qle_bool (threshold_percentage config) pct
                                      then "Yes" else "No" |};
               p_missing := Some missing |}
      else POk {| p_monitors := sts; p_metrics := Some base; p_missing := Some missing |}
  | _ => POk {| p_monitors := []; p_metrics := Some initial; p_missing := Some ids |}
  end.

End ShinobiDeep.

(* ------------------------------------------------------------------------- *)
(** ** [src/server_check.py] *)

Module ServerCheck.

Inductive host_status : Type := Up | Down.

Definition host_status_eqb (a b : host_status) : bool :=
  match a, b with Up, Up | Down, Down => true | _, _ => false end.

(** What [ping3.ping(ip, timeout=5)] does: a response time, [None] on a
    timeout, [False] on some errors, or an exception. *)
Inductive ping3_outcome : Type :=
| P3Time (ms : Q)
| P3False
| P3None
| P3Raise.

(** What the fallback [subprocess.run(['ping', ...])] does: a return code or
    an exception. *)
Inductive system_ping_outcome : Type :=
| SysReturn (rc : Z)
| SysRaise.

Record attempt : Type := mkAttempt {
  att_ping3 : ping3_outcome;
  att_system : system_ping_outcome
}.

(** [try_ping]: [response_time is not None] succeeds (so does [False]);
    otherwise the result of the system ping. *)
Definition try_ping (a : attempt) : bool :=
  match att_ping3 a with
  | P3Time _ | P3False => true
  | P3None | P3Raise =>
      match att_system a with
      | SysReturn rc => rc =? 0
      | SysRaise => false
      end
  end.

Inductive probe_event : Type :=
| Try                 (* one call of [try_ping()] *)
| Wait (secs : Z).    (* [time.sleep(secs)] *)

(** [ping_server]: [first] and [second] are the outcomes the first and the
    second call of [try_ping] would observe. *)
Definition ping_server (first second : attempt) : host_status * list probe_event :=
  if try_ping first then (Up, [Try])
  else if try_ping second then (Up, [Try; Wait 120; Try])
  else (Down, [Try; Wait 120; Try]).

(** One entry of [server_status_tracker]; timestamps are seconds. *)
Record tracker : Type := mkTracker {
  last_status : option host_status;
  last_down_time : option Z;
  last_up_time : option Z;
  notification_sent : bool
}.

Definition init_tracker : tracker :=
  {| last_status := None; last_down_time := None; last_up_time := None;
     notification_sent := false |}.

(** The row appended to the host's sheet: [down_time] is always [""]. *)
Record row : Type := mkRow {
  row_time : Z;
  row_status : host_status;
  row_up_time : option Z;
  row_duration : option Q
}.

(** The body of [for server in servers] for one host, once [status] is
    known: the updated tracker, the row, and whether an alert was sent. *)
Definition log_host (tr : tracker) (status : host_status) (current_time : Z)
  : tracker * row * bool :=
  let last := last_status tr in
  let '(tr1, up_time, duration, alert) :=
    if host_status_eqb status Down && negb (notification_sent tr) then
      ({| last_status := last_status tr; last_down_time := last_down_time tr;
          last_up_time := last_up_time tr; notification_sent := true |},
       None, None, true)
    else if host_status_eqb status Up then
      let '(tr0, up0, dur0) :=
        if match last with Some Down => true | _ => false end then
          let '(ldt, dur) :=
            match last_down_time tr with
            | Some d => (None, Some (round2 (inject_Z (current_time - d) / 60)))
            | None => (None, None)
            end in
          ({| last_status := last_status tr; last_down_time := ldt;
              last_up_time := Some current_time; notification_sent := false |},
           Some current_time, dur)
        else (tr, None, None) in
      (tr0, (match last_up_time tr0 with Some u => Some u | None => up0 end), dur0, false)
    else (tr, None, None, false) in
  let ldt :=
    if host_status_eqb status Down && negb (match last with Some Down => true | _ => false end)
    then Some current_time else last_down_time tr1 in
  ({| last_status := Some status; last_down_time := ldt;
      last_up_time := last_up_time tr1; notification_sent := notification_sent tr1 |},
   {| row_time := current_time; row_status := status; row_up_time := up_time;
      row_duration := duration |},
   alert).

End ServerCheck.

(* ------------------------------------------------------------------------- *)
(** ** Observations used by the statements *)

Module Observe.
Import Shinobi ServerCheck.

(** The metrics dictionary of a call, when the call returns one. *)
Definition summary_of (r : pyresult processed) : option metrics :=
  match r with POk p => p_metrics p | Raise _ => None end.

(** The [missing_monitors] entry of a call, when present. *)
Definition missing_of (r : pyresult processed) : option (list string) :=
  match r with POk p => p_missing p | Raise _ => None end.

(** A result with the two clock-derived fields ([date], [time]) blanked. *)
Definition erase_clock (p : processed) : processed :=
  {| p_monitors := p_monitors p;
     p_missing := p_missing p;
     p_metrics :=
       option_map (fun m => {| m_date := 0; m_time := 0;
                               total_cameras := total_cameras m; recording := recording m;
                               not_recording := not_recording m;
                               percentage_recording := percentage_recording m;
                               threshold_met := threshold_met m |}) (p_metrics p) |}.

(** The identifiers "encountered" in a response, in the spec's sense: the
    [mid] of every record whose [mid] is one of the tracked identifiers. *)
Definition encountered_ids (ids : list string) (recs : list json) : list string :=
  flat_map (fun r => match r with
                     | JObj kvs => match dget "mid" kvs with
                                   | Some (JStr mid) => if str_in mid ids then [mid] else []
                                   | _ => []
                                   end
                     | _ => []
                     end) recs.

(** [log_server_status] run for one host over successive cycles, each with
    its probe result and timestamp; returns the final tracker and the rows. *)
Fixpoint log_cycles (tr : tracker) (obs : list (host_status * Z)) : tracker * list row :=
  match obs with
  | [] => (tr, [])
  | (st, t) :: rest =>
      let '(tr', r, _) := log_host tr st t in
      let '(tr'', rows) := log_cycles tr' rest in
      (tr'', r :: rows)
  end.

End Observe.

(* ------------------------------------------------------------------------- *)
(** ** [src/Shinobi.py]: [ShinobiAPI.health_check] and [ShinobiAPI.get_all_monitors]

    Both methods issue one [self.session.get(...)] to the same endpoint. What
    that call does is an [http_outcome]: the [Retry] adapter mounted by
    [_create_session] retries inside the call, and when it gives up on a
    status of its [status_forcelist] it raises [RetryError], one of the
    "other" request exceptions. A body that is not JSON makes [resp.json()]
    raise [requests.JSONDecodeError], also a [RequestException]. *)

Module ShinobiHTTP.

Inductive http_outcome : Type :=
| HConnectionError          (* a [requests.ConnectionError] that is not a timeout *)
| HConnectTimeout           (* [ConnectTimeout]: both a [ConnectionError] and a [Timeout] *)
| HReadTimeout              (* [ReadTimeout]: a [Timeout] only *)
| HOtherRequestError        (* any other [RequestException], e.g. [RetryError] *)
| HResponse (code : Z) (body : option json).   (* [None]: the body is not JSON *)

(** Python truthiness of a decoded JSON value. *)
Definition truthy (v : json) : bool :=
  match v with
  | JNull => false
  | JBool b => b
  | JNum z => negb (z =? 0)
  | JStr s => negb (String.eqb s "")
  | JArr [] => false
  | JArr _ => true
  | JObj [] => false
  | JObj _ => true
  end.

(** [resp.raise_for_status()] raises [HTTPError] on a 4xx or 5xx status. *)
Definition raise_for_status (code : Z) : bool := (400 <=? code) && (code <? 600).

(** [isinstance(data, dict) and not data.get("ok")]. *)
Definition api_error (data : json) : bool :=
  match data with
  | JObj kvs => negb (match dget "ok" kvs with Some v => truthy v | None => false end)
  | _ => false
  end.

Definition health_check (o : http_outcome) : string :=
  match o with
  | HConnectionError | HConnectTimeout => "UNREACHABLE"   (* [except requests.ConnectionError] *)
  | HReadTimeout => "TIMEOUT"                            (* [except requests.Timeout] *)
  | HOtherRequestError => "ERROR"
  | HResponse code body =>
      if raise_for_status code then "ERROR"
      else match body with
           | None => "ERROR"
           | Some data => if api_error data then "INVALID_RESPONSE" else "OK"
           end
  end.

(** [get_all_monitors] catches every [RequestException] itself, so the
    [@retry] decorator never sees an exception and the method runs once. *)
Definition get_all_monitors (o : http_outcome) : option json :=
  match o with
  | HResponse code (Some data) =>
      if raise_for_status code then None
      else if api_error data then None
      else Some data
  | _ => None
  end.

End ShinobiHTTP.

(** ** [src/shinobi_deep.py]: [ShinobiAPI.get_all_monitors]

    The same request, with the handlers in a different order and a check
    that the body is a list. The returned message is given by its
    constructor; [str(e)] of the caught exception is left out. *)

Module DeepHTTP.
Import ShinobiHTTP.

Inductive fetch_status : Type :=
| FetchSuccess                 (* "success" *)
| FetchApiError                (* f"API error: {msg}" *)
| FetchBadFormat               (* "Unexpected API response format" *)
| FetchTimedOut                (* "Request timed out" *)
| FetchConnectionFailed        (* "Connection failed" *)
| FetchHTTPError (code : Z)    (* f"HTTP error: {str(e)}" *)
| FetchParseFailed             (* f"Response parsing failed: {str(e)}" *)
| FetchUnexpected.             (* f"Unexpected error: {str(e)}" *)

Definition is_list (data : json) : bool :=
  match data with JArr _ => true | _ => false end.

Definition get_all_monitors (o : http_outcome) : option json * fetch_status :=
  match o with
  | HConnectTimeout | HReadTimeout => (None, FetchTimedOut)   (* [except requests.Timeout] *)
  | HConnectionError => (None, FetchConnectionFailed)
  | HOtherRequestError => (None, FetchUnexpected)
  | HResponse code body =>
      if raise_for_status code then (None, FetchHTTPError code)
      else match body with
           | None => (None, FetchParseFailed)
           | Some data =>
               if api_error data then (None, FetchApiError)
               else if negb (is_list data) then (None, FetchBadFormat)
               else (Some data, FetchSuccess)
           end
  end.

End DeepHTTP.

(* ------------------------------------------------------------------------- *)
(** ** [GoogleSheetsClient.append_row] in [src/Shinobi.py] and in
    [src/shinobi_deep.py]

    [ok k] / [outcome k] is what the [k]-th call of [self.sheet.append_row]
    does (attempts counted from 0); [init k] is the result of the [k]-th call
    of [self._initialize_client()] made by [append_row]. The events are the
    calls to the outside world, in order. *)

Module SheetsClient.

Inductive sheet_event : Type :=
| AppendCall                (* [self.sheet.append_row(row)] *)
| SleepFor (secs : Q)       (* [time.sleep(...)] *)
| Reinit.                   (* [self._initialize_client()] *)

(** [retry_backoff_factor * (2 ** attempt)]. *)
Definition backoff (factor : Q) (attempt : nat) : Q :=
  (factor * inject_Z (2 ^ Z.of_nat attempt))%Q.

(** [src/Shinobi.py]: [for attempt in range(max_retries)], each failure
    followed by a sleep. *)
Fixpoint append_attempts (factor : Q) (ok : nat -> bool) (n attempt : nat)
  : bool * list sheet_event :=
  match n with
  | O => (false, [])
  | S n' =>
      if ok attempt then (true, [AppendCall])
      else let '(r, evs) := append_attempts factor ok n' (S attempt) in
           (r, AppendCall :: SleepFor (backoff factor attempt) :: evs)
  end.

Definition append_row (sheet_ready : bool) (max_retries : Z) (factor : Q) (ok : nat -> bool)
  : bool * list sheet_event :=
  if sheet_ready then append_attempts factor ok (Z.to_nat max_retries) O
  else (false, []).

(** [src/shinobi_deep.py]: how one call of [self.sheet.append_row] ends. *)
Inductive append_outcome : Type :=
| AOk
| AApiError (status_code : Z)   (* [gspread.exceptions.APIError] *)
| ANetworkError                 (* another [GSpreadException], or a [RequestException] *)
| AUnexpected.                  (* any other exception *)

(** The tail of a failed, non-fatal attempt: [if attempt < max_retries: sleep]. *)
Definition after_failure (max_retries : Z) (factor : Q) (attempt : nat)
  (evs : list sheet_event) (res : (bool * string) * list sheet_event)
  : (bool * string) * list sheet_event :=
  (fst res,
   AppendCall :: evs
     ++ (if (Z.of_nat attempt <? max_retries)%Z then [SleepFor (backoff factor attempt)] else [])
     ++ snd res).

Fixpoint deep_attempts (max_retries : Z) (factor : Q) (init : nat -> bool)
  (outcome : nat -> append_outcome) (n attempt i : nat)
  : (bool * string) * list sheet_event :=
  match n with
  | O => ((false, "Max retries exceeded"%string), [])
  | S n' =>
      match outcome attempt with
      | AOk => ((true, "Success"%string), [AppendCall])
      | AApiError code =>
          if (code =? 401) || (code =? 403) then
            if init i then
              after_failure max_retries factor attempt [Reinit]
                (deep_attempts max_retries factor init outcome n' (S attempt) (S i))
            else ((false, "Reauth failed"%string), [AppendCall; Reinit])
          else
            after_failure max_retries factor attempt []
              (deep_attempts max_retries factor init outcome n' (S attempt) i)
      | ANetworkError =>
          after_failure max_retries factor attempt []
            (deep_attempts max_retries factor init outcome n' (S attempt) i)
      | AUnexpected => ((false, "Critical failure"%string), [AppendCall])
      end
  end.

Definition deep_append_row (sheet_ready : bool) (max_retries : Z) (factor : Q)
  (init : nat -> bool) (outcome : nat -> append_outcome)
  : (bool * string) * list sheet_event :=
  if sheet_ready then
    deep_attempts max_retries factor init outcome (Z.to_nat (max_retries + 1)) O O
  else if init O then
    let '(r, evs) :=
      deep_attempts max_retries factor init outcome (Z.to_nat (max_retries + 1)) O 1%nat in
    (r, Reinit :: evs)
  else ((false, "Client not initialized"%string), [Reinit]).

End SheetsClient.

(* ------------------------------------------------------------------------- *)
(** ** [save_metrics] in [src/Shinobi.py] and in [src/shinobi_deep.py]

    The output directory is the list of its entries, each a file name and its
    modification time in seconds; [os.listdir] lists the names in the order of
    this list. [remove_ok name] is whether [os.remove] on that name
    succeeds. Creating the directory and writing the new file are assumed to
    succeed. *)

Module MetricsFiles.

Definition dir : Type := list (string * Q).

(** [s.startswith(p)]. *)
Definition starts_with (s p : string) : bool := String.prefix p s.

(** [s.endswith(suf)]. *)
Definition ends_with (s suf : string) : bool :=
  let l := list_ascii_of_string s in
  let m := list_ascii_of_string suf in
  if list_eq_dec Ascii.ascii_dec (skipn (List.length l - List.length m) l) m
  then true else false.

(** [open(path, "w")]: truncates an existing file or creates a new one; its
    modification time becomes [t]. *)
Definition write_file (d : dir) (name : string) (t : Q) : dir :=
  if existsb (fun e => String.eqb (fst e) name) d
  then map (fun e => if String.eqb (fst e) name then (name, t) else e) d
  else d ++ [(name, t)].

(** [os.remove] of every entry with that name. *)
Definition remove_entry (name : string) (d : dir) : dir :=
  filter (fun e => negb (String.eqb (fst e) name)) d.

(** [src/Shinobi.py] *)

Definition data_file_name (timestamp : string) : string :=
  ("monitor_data_" ++ timestamp ++ ".json")%string.

Definition is_data_file (name : string) : bool :=
  starts_with name "monitor_data_"%string && ends_with name ".json"%string.

(** The cleanup loop: an entry is deleted when it is a [monitor_data_*.json]
    file with [getmtime < cutoff_time] and [os.remove] succeeds; a failed
    removal is logged and the loop goes on. *)
Definition cleanup (d : dir) (cutoff : Q) (remove_ok : string -> bool) : dir :=
  filter (fun e => negb (is_data_file (fst e) && negb (Qle_bool cutoff (snd e))
                         && remove_ok (fst e))) d.

(** [timestamp] is the [strftime("%Y%m%d_%H%M%S")] string, [t_write] the time
    the file is written and [t_now] the later [time.time()] reading. Returns
    the directory afterwards and the returned path (its file name). *)
Definition save_metrics (d : dir) (timestamp : string) (t_write t_now : Q)
  (log_retention_days : Z) (remove_ok : string -> bool) : dir * string :=
  let name := data_file_name timestamp in
  let d1 := write_file d name t_write in
  let cutoff_time := (t_now - inject_Z (log_retention_days * 86400))%Q in
  (cleanup d1 cutoff_time remove_ok, name).

(** [src/shinobi_deep.py] *)

(** [sorted(files, key=getmtime)]: a stable insertion sort. *)
Fixpoint insert_by_mtime (x : string * Q) (l : list (string * Q)) : list (string * Q) :=
  match l with
  | [] => [x]
  | y :: ys => if Qle_bool (snd y) (snd x) then y :: insert_by_mtime x ys else x :: y :: ys
  end.

Definition sort_by_mtime (l : list (string * Q)) : list (string * Q) :=
  fold_left (fun acc x => insert_by_mtime x acc) l [].

(** [while len(files) >= max_log_files: os.remove(... files.pop(0))]; the
    boolean is [false] when the loop raises: [pop] on an empty list
    ([IndexError]) or a failed [os.remove] ([OSError]). *)
Fixpoint rotate (max_log_files : Z) (remove_ok : string -> bool)
  (files : list (string * Q)) (d : dir) : dir * bool :=
  if max_log_files <=? Z.of_nat (List.length files) then
    match files with
    | [] => (d, false)
    | (n, _) :: rest =>
        if remove_ok n then rotate max_log_files remove_ok rest (remove_entry n d)
        else (d, false)
    end
  else (d, true).

Definition status_file_name (timestamp : string) : string :=
  ("monitor_statuses_" ++ timestamp ++ ".json")%string.

Definition deep_save_metrics (d : dir) (timestamp : string) (t_write : Q)
  (max_log_files : Z) (remove_ok : string -> bool) : dir * string :=
  let files := sort_by_mtime (filter (fun e => starts_with (fst e) "monitor_statuses"%string) d) in
  let '(d1, ok) := rotate max_log_files remove_ok files d in
  if ok then
    let name := status_file_name timestamp in
    (write_file d1 name t_write, name)
  else (d1, ""%string).                     (* [except ...: return ""] *)

End MetricsFiles.

(* ------------------------------------------------------------------------- *)
(** ** [src/server_check.py]: [initialize_excel_sheet] and the workbook side
    of [log_server_status]

    A workbook is the list of its sheets, in order, each with its rows. The
    data row of a host holds its IP and the [row] computed by [log_host].
    [workbook.create_sheet(title)] appends a sheet; openpyxl refuses a title
    containing one of [\ * ? : / [ ]] with a [ValueError]. *)

Module Workbook.
Import ServerCheck.

Inductive sheet_row : Type :=
| HeaderRow                         (* the six column titles, in row 1 *)
| DataRow (ip : string) (r : row).

Definition workbook : Type := list (string * list sheet_row).

Definition sanitize_char (c : Ascii.ascii) : Ascii.ascii :=
  if Ascii.eqb c "/"%char || Ascii.eqb c "\"%char || Ascii.eqb c ":"%char
  then "_"%char else c.

(** [name.replace("/", "_").replace("\\", "_").replace(":", "_")]. *)
Definition sanitize (name : string) : string :=
  string_of_list_ascii (map sanitize_char (list_ascii_of_string name)).

Definition invalid_title_char (c : Ascii.ascii) : bool :=
  existsb (Ascii.eqb c) ["\"%char; "*"%char; "?"%char; ":"%char; "/"%char; "["%char; "]"%char].

(** [str.lower()] on a sheet name; names are taken to be ASCII. *)
Definition lower_char (c : Ascii.ascii) : Ascii.ascii :=
  let n := Ascii.nat_of_ascii c in
  if (65 <=? n)%nat && (n <=? 90)%nat then Ascii.ascii_of_nat (n + 32) else c.

Definition lower (s : string) : string :=
  string_of_list_ascii (map lower_char (list_ascii_of_string s)).

(** [sheet_name not in workbook.sheetnames] compares exactly. When the name
    is new, [create_sheet] titles an empty name ["Sheet"] (or ["Sheet1"],
    ...), raises [ValueError] on a refused character, and, through
    [avoid_duplicate_name], appends a number to a name equal to an existing
    one up to case; in the first and the last case the new sheet is not
    titled [sheet_name] and [workbook[sheet_name]] raises [KeyError]. *)
Definition initialize_excel_sheet (wb : workbook) (sheet_name : string)
  : option (workbook * string) :=
  let name := sanitize sheet_name in
  if str_in name (map fst wb) then Some (wb, name)
  else if String.eqb name "" then None
  else if existsb invalid_title_char (list_ascii_of_string name) then None
  else if existsb (fun n => String.eqb (lower n) (lower name)) (map fst wb) then None
  else Some (wb ++ [(name, [HeaderRow])], name).

(** [sheet.append(row)] on the sheet [workbook[name]]. *)
Definition append_to_sheet (wb : workbook) (name : string) (r : sheet_row) : workbook :=
  map (fun s => if String.eqb (fst s) name then (fst s, snd s ++ [r]) else s) wb.

Record server : Type := mkServer {
  srv_key : string;     (* [next(iter(server))] *)
  srv_name : string;    (* [server[server_key]] *)
  srv_ip : string
}.

(** The [for server in servers] loop at one [current_time], each host paired
    with the result of its [ping_server]: the updated trackers, the workbook,
    and the names of the hosts an alert was sent for; [None] when
    [initialize_excel_sheet] raises. *)
Fixpoint log_servers (trk : string -> tracker) (wb : workbook) (current_time : Z)
  (probes : list (server * host_status))
  : option ((string -> tracker) * workbook * list string) :=
  match probes with
  | [] => Some (trk, wb, [])
  | (srv, st) :: rest =>
      let '(tr', r, alert) := log_host (trk (srv_key srv)) st current_time in
      let trk' := fun k => if String.eqb k (srv_key srv) then tr' else trk k in
      match initialize_excel_sheet wb (srv_name srv) with
      | None => None
      | Some (wb1, name) =>
          match log_servers trk' (append_to_sheet wb1 name (DataRow (srv_ip srv) r))
                  current_time rest with
          | None => None
          | Some (trk'', wb'', alerts) =>
              Some (trk'', wb'', if alert then srv_name srv :: alerts else alerts)
          end
      end
  end.

End Workbook.

(* ========================================================================= *)
(** * Properties *)

Import Shinobi ShinobiMain ServerCheck Observe.
Open Scope string_scope.
Open Scope list_scope.
Open Scope Z_scope.

(** Sample inputs. *)
Definition rec_of (mid mode st : string) : json :=
  JObj [("mid"%string, JStr mid); ("name"%string, JStr mid); ("mode"%string, JStr mode);
        ("status"%string, JStr st)].

Definition cfg_of (ids : list string) : Config :=
  {| monitor_ids := ids; max_consecutive_failures := 3;
     apps_script_url := "https://script.example/exec"; notification_cooldown := 3600 |}.

Definition deep_cfg_of (ids : list string) (thr : Q) : ShinobiDeep.DeepConfig :=
  {| ShinobiDeep.deep_monitor_ids := ids; ShinobiDeep.threshold_percentage := thr |}.

Example process_monitors_sample :
  option_map percentage_recording
    (summary_of (Shinobi.process_monitors
                   (JArr [rec_of "A" "record" "Recording"; rec_of "B" "start" "Watching"])
                   (cfg_of ["A"; "B"; "C"]) 0))
  = Some (3333 # 100)%Q.
Proof. vm_compute. reflexivity. Qed.

(** C1 (counterexample): two calls on the same records and configuration,
    made on different days, return different summaries: the [date] field is
    read from the clock. *)
Lemma C1_clock_dependent :
  Shinobi.process_monitors (JArr [rec_of "A" "record" "Recording"]) (cfg_of ["A"]) 0
  <> Shinobi.process_monitors (JArr [rec_of "A" "record" "Recording"]) (cfg_of ["A"]) 86400.
Proof. vm_compute. intro H. inversion H. Qed.

(** C1: [process_monitors] (both in [Shinobi.py] and in [shinobi_deep.py])
    is a function of the record list, the configuration and the clock; two
    calls on identical records and configuration return identical results in
    every field except [date] and [time], which are those of the clock. *)
Theorem C1_deterministic_up_to_clock :
  forall (monitors_data : json) (config : Config) (dconfig : ShinobiDeep.DeepConfig)
         (t1 t2 : Z),
    pmap erase_clock (Shinobi.process_monitors monitors_data config t1)
    = pmap erase_clock (Shinobi.process_monitors monitors_data config t2)
    /\ pmap erase_clock (ShinobiDeep.process_monitors monitors_data dconfig t1)
       = pmap erase_clock (ShinobiDeep.process_monitors monitors_data dconfig t2).
Proof.
  intros monitors_data config dconfig t1 t2. split.
  - unfold Shinobi.process_monitors.
    destruct monitors_data as [| | | | [|r recs] |]; try reflexivity.
    destruct (scan _ _ _) as [[seen sts]|e]; [|reflexivity]. cbn.
    destruct (compute_percentage _ _); reflexivity.
  - unfold ShinobiDeep.process_monitors.
    destruct monitors_data; try reflexivity.
    destruct (ShinobiDeep.dscan _ _ _ _) as [[[missing rc] sts]|e]; [|reflexivity]. cbn.
    destruct (0 <? _); [|reflexivity]. cbn.
    destruct (py_truediv _ _); reflexivity.
Qed.

(** ** Membership *)

Lemma str_in_iff : forall x xs, str_in x xs = true <-> In x xs.
Proof.
  intros x xs. unfold str_in. rewrite existsb_exists. split.
  - intros [y [Hy Heq]]. apply String.eqb_eq in Heq. subst. exact Hy.
  - intros H. exists x. split; [exact H | apply String.eqb_refl].
Qed.

Lemma str_in_false : forall x xs, str_in x xs = false <-> ~ In x xs.
Proof.
  intros x xs. rewrite <- str_in_iff. destruct (str_in x xs); split; congruence.
Qed.

(** ** Deduplication in [Shinobi.py]: the loop keeps at most one status per
    tracked identifier. *)
Lemma scan_first_occurrence :
  forall ids recs seen seen' sts,
    scan ids seen recs = POk (seen', sts) ->
    NoDup (map st_id sts)
    /\ incl (map st_id sts) ids
    /\ (forall x, In x (map st_id sts) -> ~ In x seen).
Proof.
  intros ids recs. induction recs as [|r recs IH]; intros seen seen' sts Hs.
  - cbn in Hs. inversion Hs; subst. cbn. repeat split; [constructor | intros x [] | tauto].
  - destruct r as [| | | | |kvs]; cbn in Hs; try discriminate.
    destruct (dget "mid" kvs) as [[| | | mid | |]|]; try (eapply IH; exact Hs).
    destruct (str_in mid ids && negb (str_in mid seen)) eqn:Hc;
      [|eapply IH; exact Hs].
    apply andb_true_iff in Hc as [Hin Hnew].
    apply str_in_iff in Hin. apply negb_true_iff, str_in_false in Hnew.
    destruct (scan ids (mid :: seen) recs) as [[s1 sts1]|e] eqn:Hr; cbn in Hs;
      [|discriminate].
    inversion Hs; subst. clear Hs.
    destruct (IH _ _ _ Hr) as [Hnd [Hincl Hfresh]]. cbn.
    repeat split.
    + constructor; [|exact Hnd]. intro Hm. apply (Hfresh mid Hm). left. reflexivity.
    + intros x [<-|Hx]; [exact Hin | apply Hincl, Hx].
    + intros x [<-|Hx]; [exact Hnew|]. intro Hs. apply (Hfresh x Hx). right. exact Hs.
Qed.

Lemma count_operational_le : forall sts, count_operational sts <= Z.of_nat (List.length sts).
Proof.
  intros sts. unfold count_operational. apply Nat2Z.inj_le.
  induction sts as [|st sts IH]; cbn; [lia|]. destruct (st_operational st); cbn; lia.
Qed.

(** The two-record input of the spec: [[{mid:"A"}, {mid:"A"}]], both
    operational, with [monitor_ids = ["A"]]. *)
Definition duplicate_records : json :=
  JArr [rec_of "A" "record" "Recording"; rec_of "A" "record" "Recording"].

(** C2: on the duplicate-identifier input, [Shinobi.py] counts the record
    once, while [shinobi_deep.py]'s loop, which has no [seen_ids] check,
    counts it twice: two status entries, [recording = 2],
    [not_recording = -1], [percentage_recording = 200.0]. *)
Theorem C2_deep_counts_duplicates :
  option_map (fun m => (total_cameras m, recording m))
    (summary_of (Shinobi.process_monitors duplicate_records (cfg_of ["A"]) 0))
  = Some (1, 1)
  /\ option_map (fun m => (total_cameras m, recording m, not_recording m,
                            Qeq_bool (percentage_recording m) 200))
       (summary_of (ShinobiDeep.process_monitors duplicate_records (deep_cfg_of ["A"] 75) 0))
     = Some (1, 2, -1, true)
  /\ (match ShinobiDeep.process_monitors duplicate_records (deep_cfg_of ["A"] 75) 0 with
      | POk p => List.length (p_monitors p)
      | Raise _ => 0%nat
      end) = 2%nat.
Proof. vm_compute. repeat split. Qed.

(** [Shinobi.py] never counts more operational monitors than it tracks. *)
Lemma shinobi_recording_le_total :
  forall monitors_data config t m,
    summary_of (Shinobi.process_monitors monitors_data config t) = Some m ->
    0 <= recording m <= total_cameras m.
Proof.
  intros monitors_data config t m H. unfold Shinobi.process_monitors in H.
  destruct monitors_data as [| | | | [|r recs] |]; try (cbn in H; discriminate).
  destruct (scan (monitor_ids config) [] (r :: recs)) as [[seen sts]|e] eqn:Hs;
    cbn [pbind summary_of fst snd] in H; [|discriminate].
  destruct (compute_percentage _ _); cbn [pbind summary_of p_metrics] in H; [|discriminate].
  inversion H; subst; cbn. clear H.
  destruct (scan_first_occurrence _ _ _ _ _ Hs) as [Hnd [Hincl _]].
  pose proof (NoDup_incl_length Hnd Hincl) as Hlen. rewrite length_map in Hlen.
  pose proof (count_operational_le sts). unfold count_operational in *. lia.
Qed.

(** ** The driver loop *)

(** A cycle in which the health check passes and [get_all_monitors]
    returns [None]. *)
Definition fetch_failure (t : Z) : cycle_env :=
  {| env_health := "OK"; env_time := t; env_post_ok := true; env_fetch := None;
     env_local := t |}.

(** A cycle in which the health check fails. *)
Definition health_failure (t : Z) : cycle_env :=
  {| env_health := "UNREACHABLE"; env_time := t; env_post_ok := true; env_fetch := None;
     env_local := t |}.

(** For comparison: three failed health checks with a maximum of 3 stop
    the driver with exit code 1; the exit notice is posted once, last. *)
Example health_failures_stop :
  run (cfg_of ["A"]) (Running init_state)
      [health_failure 100; health_failure 160; health_failure 220]
  = (Stopped 1, [Post 100 DownAlert; Sleep; Sleep; Post 220 ExitNotice; Exit 1]).
Proof. vm_compute. reflexivity. Qed.

(** The iteration when the health check passes and the fetch fails. *)
Lemma cycle_fetch_none :
  forall config s e,
    env_health e = "OK" -> env_fetch e = None ->
    cycle config s e
    = give_up_or_sleep config e
        {| consecutive_failures := 1; last_notification_time := last_notification_time s;
           server_was_up := true |}.
Proof. intros config s e Hh Hf. unfold cycle. rewrite Hh, Hf. reflexivity. Qed.

(** C3: when the health check passes, [main] resets [consecutive_failures]
    to 0 (line 464) before calling [get_all_monitors], so a run of failed
    data fetches leaves the counter at 1 and, for any maximum of at least
    2, never stops the driver nor posts the exit notice: it only sleeps. *)
Theorem C3_fetch_failures_never_stop :
  forall (config : Config) (s : loop_state) (envs : list cycle_env),
    2 <= max_consecutive_failures config ->
    envs <> [] ->
    Forall (fun e => env_health e = "OK" /\ env_fetch e = None) envs ->
    exists s', run config (Running s) envs = (Running s', repeat Sleep (List.length envs))
               /\ consecutive_failures s' = 1.
Proof.
  intros config s envs Hmax Hne Hall. revert s.
  induction Hall as [|e envs [Hh Hf] Hall IH]; intros s; [congruence|].
  cbn [run]. rewrite (cycle_fetch_none config s e Hh Hf).
  unfold give_up_or_sleep. cbn [consecutive_failures].
  replace (max_consecutive_failures config <=? 1) with false by (symmetry; apply Z.leb_gt; lia).
  destruct envs as [|e' envs'].
  - cbn. eexists. split; reflexivity.
  - destruct (IH ltac:(discriminate) {| consecutive_failures := 1;
                                         last_notification_time := last_notification_time s;
                                         server_was_up := true |}) as [s' [Hrun Hcf]].
    rewrite Hrun. exists s'. split; [reflexivity | exact Hcf].
Qed.

Lemma C3_fetch_failures_never_stop_witness :
  2 <= max_consecutive_failures (cfg_of ["A"])
  /\ exists s', run (cfg_of ["A"]) (Running init_state)
                    [fetch_failure 100; fetch_failure 160; fetch_failure 220]
                = (Running s', [Sleep; Sleep; Sleep])
                /\ consecutive_failures s' = 1.
Proof.
  split; [cbn; lia|].
  apply (C3_fetch_failures_never_stop (cfg_of ["A"]) init_state
           [fetch_failure 100; fetch_failure 160; fetch_failure 220]).
  - cbn; lia.
  - discriminate.
  - repeat constructor.
Defined.

(** ** The threshold flag *)

Lemma yes_iff_qle_bool : forall a b : Q,
  (if Qle_bool a b then "Yes" else "No") = "Yes" <-> (a <= b)%Q.
Proof.
  intros a b. rewrite <- Qle_bool_iff. destruct (Qle_bool a b); split; congruence.
Qed.

Lemma py_truediv_nonzero : forall a b, b <> 0 -> py_truediv a b = POk (inject_Z a / inject_Z b)%Q.
Proof. intros a b Hb. unfold py_truediv. apply Z.eqb_neq in Hb. rewrite Hb. reflexivity. Qed.

(** Four tracked monitors, three of them operational: exactly 75.00%. *)
Definition three_of_four : json :=
  JArr [rec_of "A" "record" "Recording"; rec_of "B" "record" "Recording";
        rec_of "C" "record" "Recording"; rec_of "D" "stop" "Stopped"].

Definition ids_abcd : list string := ["A"; "B"; "C"; "D"].

Definition three_of_four_summary : option metrics :=
  Eval vm_compute in summary_of (Shinobi.process_monitors three_of_four (cfg_of ids_abcd) 0).

Definition three_of_four_deep_summary : option metrics :=
  Eval vm_compute in
    summary_of (ShinobiDeep.process_monitors three_of_four (deep_cfg_of ids_abcd 75) 0).

Example three_of_four_met :
  option_map (fun m => (Qeq_bool (percentage_recording m) 75, threshold_met m))
    three_of_four_summary = Some (true, "Yes").
Proof. vm_compute. reflexivity. Qed.

(** C4 (counterexample): [shinobi_deep.py] with [threshold_percentage = 0]
    (accepted by [validate_threshold]) and no tracked monitors reports a
    percentage of 0.0, which is [>=] the threshold, with [threshold_met = "No"]. *)
Lemma C4_zero_threshold_not_met :
  option_map (fun m => (Qle_bool (ShinobiDeep.threshold_percentage (deep_cfg_of [] 0))
                                 (percentage_recording m), threshold_met m))
    (summary_of (ShinobiDeep.process_monitors (JArr []) (deep_cfg_of [] 0) 0))
  = Some (true, "No").
Proof. vm_compute. reflexivity. Qed.

(** C4: in [Shinobi.py] every summary has [threshold_met = "Yes"] iff
    [percentage_recording >= 75] (its fixed threshold; equality counts as
    met). In [shinobi_deep.py] the same holds against [threshold_percentage]
    whenever the percentage is computed (a record list was received and at
    least one monitor is tracked) or the threshold is positive; otherwise the
    summary keeps its initial [percentage_recording = 0.0] and
    [threshold_met = "No"]. *)
Theorem C4_threshold_flag :
  forall (monitors_data : json) (config : Config) (dconfig : ShinobiDeep.DeepConfig)
         (t : Z) (m m' : metrics),
    (summary_of (Shinobi.process_monitors monitors_data config t) = Some m ->
     (threshold_met m = "Yes" <-> (75 <= percentage_recording m)%Q))
    /\ (summary_of (ShinobiDeep.process_monitors monitors_data dconfig t) = Some m' ->
        ((exists recs, monitors_data = JArr recs)
         /\ ShinobiDeep.deep_monitor_ids dconfig <> []
         \/ (0 < ShinobiDeep.threshold_percentage dconfig)%Q) ->
        (threshold_met m' = "Yes"
         <-> (ShinobiDeep.threshold_percentage dconfig <= percentage_recording m')%Q))
    /\ (summary_of (ShinobiDeep.process_monitors monitors_data dconfig t) = Some m' ->
        ((forall recs, monitors_data <> JArr recs)
         \/ ShinobiDeep.deep_monitor_ids dconfig = []) ->
        percentage_recording m' = 0%Q /\ threshold_met m' = "No").
Proof.
  intros monitors_data config dconfig t m m'. split; [|split].
  - intros H. unfold Shinobi.process_monitors in H.
    destruct monitors_data as [| | | | [|r recs] |]; try (cbn in H; discriminate).
    destruct (scan (monitor_ids config) [] (r :: recs)) as [[seen sts]|e];
      cbn [pbind summary_of fst snd] in H; [|discriminate].
    destruct (compute_percentage _ _); cbn [pbind summary_of p_metrics] in H; [|discriminate].
    inversion H; subst; cbn. apply yes_iff_qle_bool.
  - intros H Hcase. unfold ShinobiDeep.process_monitors in H.
    destruct monitors_data as [| | | | recs |];
      try (cbn in H; inversion H; subst; cbn;
           destruct Hcase as [[[recs' Hr] _]|Hpos]; [discriminate|];
           split; [discriminate | intro Hle; apply Qle_not_lt in Hle; contradiction]).
    destruct (ShinobiDeep.dscan _ _ _ _) as [[[missing rc] sts]|e];
      cbn [pbind summary_of] in H; [|discriminate].
    destruct (0 <? Z.of_nat (List.length (ShinobiDeep.deep_monitor_ids dconfig))) eqn:Ht.
    + rewrite py_truediv_nonzero in H by (apply Z.ltb_lt in Ht; lia).
      cbn in H. inversion H; subst; cbn. apply yes_iff_qle_bool.
    + cbn in H. inversion H; subst; cbn.
      destruct Hcase as [[_ Hne]|Hpos].
      * destruct (ShinobiDeep.deep_monitor_ids dconfig); [congruence|].
        cbn in Ht. discriminate.
      * split; [discriminate | intro Hle; apply Qle_not_lt in Hle; contradiction].
  - intros H Hcase. unfold ShinobiDeep.process_monitors in H.
    destruct monitors_data as [| | | | recs |];
      try (cbn in H; inversion H; subst; cbn; split; reflexivity).
    destruct (ShinobiDeep.dscan _ _ _ _) as [[[missing rc] sts]|e];
      cbn [pbind summary_of] in H; [|discriminate].
    destruct Hcase as [Hnl|Hnil]; [exfalso; exact (Hnl recs eq_refl)|].
    rewrite Hnil in H. cbn in H. inversion H; subst; cbn. split; reflexivity.
Qed.

Definition metrics_or_zero (o : option metrics) : metrics :=
  match o with
  | Some m => m
  | None => {| m_date := 0; m_time := 0; total_cameras := 0; recording := 0;
               not_recording := 0; percentage_recording := 0; threshold_met := "No" |}
  end.

Lemma C4_threshold_flag_witness :
  summary_of (Shinobi.process_monitors three_of_four (cfg_of ids_abcd) 0)
    = Some (metrics_or_zero three_of_four_summary)
  /\ (threshold_met (metrics_or_zero three_of_four_summary) = "Yes"
      <-> (75 <= percentage_recording (metrics_or_zero three_of_four_summary))%Q)
  /\ (threshold_met (metrics_or_zero three_of_four_deep_summary) = "Yes"
      <-> (ShinobiDeep.threshold_percentage (deep_cfg_of ids_abcd 75)
           <= percentage_recording (metrics_or_zero three_of_four_deep_summary))%Q).
Proof.
  pose proof (C4_threshold_flag three_of_four (cfg_of ids_abcd) (deep_cfg_of ids_abcd 75) 0
                (metrics_or_zero three_of_four_summary)
                (metrics_or_zero three_of_four_deep_summary)) as [H1 [H2 _]].
  split; [vm_compute; reflexivity|]. split.
  - apply H1. vm_compute. reflexivity.
  - apply H2.
    + vm_compute. reflexivity.
    + left. split; [eexists; reflexivity | discriminate].
Defined.

(** ** Notification cooldown *)

Lemma in_posts_app : forall (t : Z) (m : message) (l1 l2 : list effect),
  In (Post t m) (l1 ++ l2) <-> In (Post t m) l1 \/ In (Post t m) l2.
Proof. intros. apply in_app_iff. Qed.

(** [give_up_or_sleep] posts at most the exit notice and keeps the state. *)
Lemma give_up_or_sleep_posts :
  forall config e s d effs,
    give_up_or_sleep config e s = (d, effs) ->
    (forall t m, In (Post t m) effs -> m = ExitNotice)
    /\ (forall s', d = Running s' -> s' = s).
Proof.
  intros config e s d effs H. unfold give_up_or_sleep, trigger_apps_script in H.
  destruct (_ <=? _); [destruct (String.eqb _ _)|]; inversion H; subst; clear H;
    split; intros; try discriminate.
  - cbn in H. destruct H as [H|[]]. discriminate.
  - cbn in H. destruct H as [H|[H|[]]]; congruence.
  - cbn in H. destruct H as [H|[]]. discriminate.
  - congruence.
Qed.

(** An iteration that posts a down alert whose request succeeds, and does not
    stop, leaves [server_was_up = False] and [last_notification_time] at the
    time of the alert. *)
Lemma cycle_alert_sent :
  forall config s e s' effs t,
    cycle config s e = (Running s', effs) ->
    In (Post t DownAlert) effs ->
    env_post_ok e = true ->
    server_was_up s' = false /\ last_notification_time s' = t.
Proof.
  intros config s e s' effs t Hc Hin Hok. unfold cycle in Hc.
  destruct (String.eqb (env_health e) "OK") eqn:Hh; cbn [negb] in Hc.
  - destruct (env_fetch e) as [data|].
    + destruct (Shinobi.process_monitors _ _ _) as [p|x];
        [destruct (p_metrics p)|]; inversion Hc; subst;
        cbn in Hin; intuition discriminate.
    + apply give_up_or_sleep_posts in Hc as [Hp _].
      specialize (Hp _ _ Hin). discriminate.
  - destruct (server_was_up s
              || (notification_cooldown config <=? env_time e - last_notification_time s)).
    + unfold trigger_apps_script in Hc at 1.
      destruct (String.eqb (apps_script_url config) "") eqn:Hu.
      * destruct (give_up_or_sleep _ _ _) as [d effs'] eqn:Hg.
        inversion Hc; subst. apply give_up_or_sleep_posts in Hg as [Hp _].
        specialize (Hp _ _ Hin). discriminate.
      * rewrite Hok in Hc.
        destruct (give_up_or_sleep _ _ _) as [d effs'] eqn:Hg.
        inversion Hc; subst. apply give_up_or_sleep_posts in Hg as [Hp Hs].
        specialize (Hs _ eq_refl). subst s'. cbn.
        destruct Hin as [Heq|Hin].
        -- inversion Heq. split; reflexivity.
        -- specialize (Hp _ _ Hin). discriminate.
    + destruct (give_up_or_sleep _ _ _) as [d effs'] eqn:Hg.
      inversion Hc; subst. apply give_up_or_sleep_posts in Hg as [Hp _].
      cbn in Hin. specialize (Hp _ _ Hin). discriminate.
Qed.

(** During an outage ([server_was_up = False]) and inside the cooldown
    window, an iteration whose health check fails posts no down alert and
    keeps the cooldown clock. *)
Lemma cycle_within_cooldown :
  forall config s e d effs,
    server_was_up s = false ->
    env_health e <> "OK" ->
    env_time e - last_notification_time s < notification_cooldown config ->
    cycle config s e = (d, effs) ->
    (forall t m, In (Post t m) effs -> m = ExitNotice)
    /\ (forall s', d = Running s' ->
                   server_was_up s' = false
                   /\ last_notification_time s' = last_notification_time s).
Proof.
  intros config s e d effs Hup Hh Hwin Hc. unfold cycle in Hc.
  apply String.eqb_neq in Hh. rewrite Hh, Hup in Hc. cbn [negb orb] in Hc.
  replace (notification_cooldown config <=? env_time e - last_notification_time s)
    with false in Hc by (symmetry; apply Z.leb_gt; lia).
  destruct (give_up_or_sleep _ _ _) as [d' effs'] eqn:Hg.
  inversion Hc; subst. apply give_up_or_sleep_posts in Hg as [Hp Hs].
  split; [exact Hp|]. intros s' Hd. specialize (Hs _ Hd). subst s'. cbn.
  split; reflexivity.
Qed.

Lemma run_within_cooldown :
  forall config es s t,
    server_was_up s = false ->
    last_notification_time s = t ->
    Forall (fun e => env_health e <> "OK" /\ env_time e - t < notification_cooldown config) es ->
    forall t', ~ In (Post t' DownAlert) (snd (run config (Running s) es)).
Proof.
  intros config es. induction es as [|e es IH]; intros s t Hup Hlast Hall t' Hin.
  - exact Hin.
  - inversion Hall as [|? ? [Hh Hw] Hrest]; subst. cbn [run] in Hin.
    destruct (cycle config s e) as [d effs] eqn:Hc.
    destruct (cycle_within_cooldown config s e d effs Hup Hh Hw Hc) as [Hp Hs].
    destruct d as [s'|code].
    + destruct (run config (Running s') es) as [d'' effs''] eqn:Hr. cbn in Hin.
      apply in_app_iff in Hin as [Hin|Hin].
      * specialize (Hp _ _ Hin). discriminate.
      * destruct (Hs s' eq_refl) as [Hup' Hlast'].
        apply (IH s' (last_notification_time s) Hup' Hlast' Hrest t').
        rewrite Hr. exact Hin.
    + destruct es; cbn in Hin; rewrite app_nil_r in Hin;
        specialize (Hp _ _ Hin); discriminate.
Qed.

(** [server_check.py]: a Down probe leaves the alert flag set, and sends no
    alert when the flag was already set. *)
Lemma log_host_down_flag :
  forall tr t tr' r a,
    log_host tr Down t = (tr', r, a) ->
    notification_sent tr' = true /\ (notification_sent tr = true -> a = false).
Proof.
  intros tr t tr' r a H. unfold log_host in H.
  destruct (notification_sent tr) eqn:Hn; cbn in H; inversion H; subst; cbn;
    rewrite ?Hn; split; auto; discriminate.
Qed.

(** Whether an alert was sent at each cycle. *)
Fixpoint log_alerts (tr : tracker) (obs : list (host_status * Z)) : list bool :=
  match obs with
  | [] => []
  | (st, t) :: rest =>
      let '(tr', _, a) := log_host tr st t in a :: log_alerts tr' rest
  end.

Definition cfg_max2 : Config :=
  {| monitor_ids := ["A"]; max_consecutive_failures := 2;
     apps_script_url := "https://script.example/exec"; notification_cooldown := 3600 |}.

(** C5 (counterexample): with [max_consecutive_failures = 2] and a one-hour
    cooldown, a down alert posted at t = 100 is followed 60 s later, inside
    the cooldown window and for the same outage, by a second webhook call:
    the exit notice, which [main] sends without checking the cooldown. *)
Lemma C5_exit_notice_within_cooldown :
  run cfg_max2 (Running init_state) [health_failure 100; health_failure 160]
  = (Stopped 1, [Post 100 DownAlert; Sleep; Post 160 ExitNotice; Exit 1]).
Proof. vm_compute. reflexivity. Qed.

(** A cycle whose notification request fails does not move
    [last_notification_time]: only [if trigger_apps_script(...)] updates it. *)
Lemma cycle_failed_post_keeps_clock :
  forall config s e s' effs,
    cycle config s e = (Running s', effs) ->
    env_post_ok e = false ->
    last_notification_time s' = last_notification_time s.
Proof.
  intros config s e s' effs Hc Hp.
  unfold cycle, give_up_or_sleep, trigger_apps_script in Hc. rewrite Hp in Hc.
  repeat (cbn in Hc; match type of Hc with
  | context [if ?b then _ else _] => destruct b
  | context [match ?x with Some _ => _ | None => _ end] => destruct x
  | context [match ?x with POk _ => _ | Raise _ => _ end] => destruct x
  end); cbn in Hc; try discriminate Hc; injection Hc as <- _; reflexivity.
Qed.

(** [server_check.py]: once set, the alert flag of a host is cleared by a
    probe exactly when the probe is [Up] and the previous one was [Down]. *)
Lemma log_host_flag_cleared :
  forall tr st t tr' r a,
    notification_sent tr = true ->
    log_host tr st t = (tr', r, a) ->
    (notification_sent tr' = false <-> st = Up /\ last_status tr = Some Down).
Proof.
  intros [ls ldt lut ns] st t tr' r a Hn H. cbn in Hn. subst ns.
  unfold log_host in H.
  destruct st, ls as [[|]|]; cbn in H; try destruct ldt; try destruct lut;
    cbn in H; injection H as <- _ _; cbn; split; intuition congruence.
Qed.

Lemma log_alerts_down_flag_set :
  forall tr ts,
    notification_sent tr = true ->
    log_alerts tr (map (fun t => (Down, t)) ts) = map (fun _ => false) ts.
Proof.
  intros tr ts. revert tr. induction ts as [|t ts IH]; intros tr Hn; [reflexivity|].
  cbn [map log_alerts].
  destruct (log_host tr Down t) as [[tr' r] a] eqn:H.
  destruct (log_host_down_flag tr t tr' r a H) as [Hn' Ha].
  rewrite (Ha Hn), (IH tr' Hn'). reflexivity.
Qed.

(** [server_check.py]: a host probed [Down] again and again gets an alert on
    the first probe only (none at all when its flag was already set). *)
Lemma log_alerts_stay_down :
  forall tr ts,
    log_alerts tr (map (fun t => (Down, t)) ts)
    = match ts with
      | [] => []
      | _ :: rest => negb (notification_sent tr) :: map (fun _ => false) rest
      end.
Proof.
  intros tr [|t ts]; [reflexivity|]. cbn [map log_alerts].
  destruct (log_host tr Down t) as [[tr' r] a] eqn:H.
  destruct (log_host_down_flag tr t tr' r a H) as [Hn' Ha].
  rewrite (log_alerts_down_flag_set tr' ts Hn'). f_equal.
  unfold log_host in H. destruct (notification_sent tr); cbn in H; injection H as _ _ <-;
    reflexivity.
Qed.

(** C5: in [Shinobi.py], once a down alert has been posted successfully at
    time [t] by an iteration that does not stop the driver, no further down
    alert is posted by later iterations whose health check fails within the
    cooldown window ([time - t < notification_cooldown]); only the exit
    notice can be posted there. A cycle whose alert request fails leaves
    [last_notification_time] where it was, so it starts no cooldown. In
    [server_check.py] a [Down] probe sets the host's alert flag and sends no
    alert when the flag was already set; a set flag is cleared exactly by an
    [Up] probe following a [Down] one; so a host that stays [Down] gets an
    alert on its first probe only. *)
Theorem C5_cooldown_suppresses_down_alerts :
  (forall (config : Config) (s s' : loop_state) (e : cycle_env) (effs : list effect)
          (t : Z) (es : list cycle_env),
     cycle config s e = (Running s', effs) ->
     In (Post t DownAlert) effs ->
     env_post_ok e = true ->
     Forall (fun e' => env_health e' <> "OK" /\ env_time e' - t < notification_cooldown config) es ->
     forall t', ~ In (Post t' DownAlert) (snd (run config (Running s') es)))
  /\ (forall (config : Config) (s s' : loop_state) (e : cycle_env) (effs : list effect),
        cycle config s e = (Running s', effs) ->
        env_post_ok e = false ->
        last_notification_time s' = last_notification_time s)
  /\ (forall (tr tr' : tracker) (t0 : Z) (r : row) (a : bool),
        log_host tr Down t0 = (tr', r, a) ->
        notification_sent tr' = true /\ (notification_sent tr = true -> a = false))
  /\ (forall (tr tr' : tracker) (st : host_status) (t0 : Z) (r : row) (a : bool),
        notification_sent tr = true ->
        log_host tr st t0 = (tr', r, a) ->
        (notification_sent tr' = false <-> st = Up /\ last_status tr = Some Down))
  /\ (forall (tr : tracker) (ts : list Z),
        log_alerts tr (map (fun t => (Down, t)) ts)
        = match ts with
          | [] => []
          | _ :: rest => negb (notification_sent tr) :: map (fun _ => false) rest
          end).
Proof.
  split; [|split; [|split; [|split]]].
  - intros config s s' e effs t es Hc Hin Hok Hall.
    destruct (cycle_alert_sent config s e s' effs t Hc Hin Hok) as [Hup Hlast].
    exact (run_within_cooldown config es s' t Hup Hlast Hall).
  - intros config s s' e effs. apply cycle_failed_post_keeps_clock.
  - intros tr tr' t0 r a. apply log_host_down_flag.
  - intros tr tr' st t0 r a. apply log_host_flag_cleared.
  - exact log_alerts_stay_down.
Qed.

Definition tracker_after_outage : tracker :=
  {| last_status := Some Down; last_down_time := Some 0; last_up_time := None;
     notification_sent := true |}.

Lemma C5_cooldown_suppresses_down_alerts_witness :
  cycle (cfg_of ["A"]) init_state (health_failure 100)
    = (Running {| consecutive_failures := 1; last_notification_time := 100;
                  server_was_up := false |}, [Post 100 DownAlert; Sleep])
  /\ ~ In (Post 160 DownAlert)
         (snd (run (cfg_of ["A"])
                   (Running {| consecutive_failures := 1; last_notification_time := 100;
                               server_was_up := false |})
                   [health_failure 160]))
  /\ last_notification_time
       (match fst (cycle (cfg_of ["A"])
                         {| consecutive_failures := 1; last_notification_time := 100;
                            server_was_up := false |}
                         {| env_health := "TIMEOUT"; env_time := 5000; env_post_ok := false;
                            env_fetch := None; env_local := 5000 |}) with
        | Running s' => s'
        | Stopped _ => init_state
        end) = 100
  /\ notification_sent (fst (fst (log_host init_tracker Down 600))) = true
  /\ notification_sent (fst (fst (log_host tracker_after_outage Up 900))) = false
  /\ log_alerts init_tracker [(Down, 600); (Down, 660); (Down, 720)] = [true; false; false].
Proof.
  destruct C5_cooldown_suppresses_down_alerts as [H1 [H2 [H3 [H4 H5]]]].
  split; [vm_compute; reflexivity|]. split; [|split; [|split; [|split]]].
  - apply (H1 (cfg_of ["A"]) init_state
              {| consecutive_failures := 1; last_notification_time := 100;
                 server_was_up := false |}
              (health_failure 100) [Post 100 DownAlert; Sleep] 100 [health_failure 160]).
    + vm_compute. reflexivity.
    + left. reflexivity.
    + reflexivity.
    + constructor; [|constructor]. cbn. split; [discriminate | lia].
  - apply (H2 (cfg_of ["A"])
              {| consecutive_failures := 1; last_notification_time := 100;
                 server_was_up := false |}
              _ {| env_health := "TIMEOUT"; env_time := 5000; env_post_ok := false;
                   env_fetch := None; env_local := 5000 |}
              [Post 5000 DownAlert; Sleep]).
    + vm_compute. reflexivity.
    + reflexivity.
  - apply (H3 init_tracker _ 600 (snd (fst (log_host init_tracker Down 600)))
              (snd (log_host init_tracker Down 600))).
    vm_compute. reflexivity.
  - apply (H4 tracker_after_outage _ Up 900 (snd (fst (log_host tracker_after_outage Up 900)))
              (snd (log_host tracker_after_outage Up 900))).
    + reflexivity.
    + vm_compute. reflexivity.
    + split; reflexivity.
  - exact (H5 init_tracker [600; 660; 720]).
Defined.

(** ** Division by the number of tracked monitors *)

Lemma scan_raises_attribute_error_only :
  forall ids seen recs e, scan ids seen recs = Raise e -> e = AttributeError.
Proof.
  intros ids seen recs. revert seen. induction recs as [|r recs IH]; intros seen e H.
  - discriminate.
  - destruct r as [| | | | |kvs]; cbn in H; try (inversion H; reflexivity).
    destruct (dget "mid" kvs) as [[| | | mid | |]|]; try (eapply IH; exact H).
    destruct (_ && _); [|eapply IH; exact H].
    destruct (scan ids (mid :: seen) recs) eqn:Hr; cbn in H; [discriminate|].
    inversion H; subst. eapply IH. exact Hr.
Qed.

Lemma dscan_raises_type_error_only :
  forall ids recs missing rc e, ShinobiDeep.dscan ids missing rc recs = Raise e -> e = TypeError.
Proof.
  intros ids recs. induction recs as [|r recs IH]; intros missing rc e H.
  - discriminate.
  - destruct r as [| | | | |kvs]; cbn in H; try (inversion H; reflexivity).
    destruct (dget "mid" kvs) as [[| | | mid | |]|]; try (eapply IH; exact H).
    destruct (negb (str_in mid ids)); [eapply IH; exact H|].
    destruct (ShinobiDeep.dscan _ _ _ recs) as [[[m c] sts]|x] eqn:Hr; cbn in H;
      [discriminate|].
    inversion H; subst. eapply IH. exact Hr.
Qed.

Lemma compute_percentage_total : forall rc total,
  compute_percentage rc total
  = if 0 <? total then POk (round2 (inject_Z rc / inject_Z total * 100)) else POk 0%Q.
Proof.
  intros rc total. unfold compute_percentage.
  destruct (0 <? total) eqn:Ht; [|reflexivity].
  rewrite py_truediv_nonzero by (apply Z.ltb_lt in Ht; lia). reflexivity.
Qed.

(** C6: neither [process_monitors] ever raises [ZeroDivisionError], and
    when no monitor is tracked every summary they return has
    [percentage_recording = 0.0]. *)
Theorem C6_zero_tracked_percentage :
  forall (monitors_data : json) (config : Config) (dconfig : ShinobiDeep.DeepConfig)
         (t : Z) (m m' : metrics),
    Shinobi.process_monitors monitors_data config t <> Raise ZeroDivisionError
    /\ ShinobiDeep.process_monitors monitors_data dconfig t <> Raise ZeroDivisionError
    /\ (monitor_ids config = [] ->
        summary_of (Shinobi.process_monitors monitors_data config t) = Some m ->
        percentage_recording m = 0%Q)
    /\ (ShinobiDeep.deep_monitor_ids dconfig = [] ->
        summary_of (ShinobiDeep.process_monitors monitors_data dconfig t) = Some m' ->
        percentage_recording m' = 0%Q).
Proof.
  intros monitors_data config dconfig t m m'. split; [|split; [|split]].
  - unfold Shinobi.process_monitors.
    destruct monitors_data as [| | | | [|r recs] |]; try discriminate.
    destruct (scan (monitor_ids config) [] (r :: recs)) as [[seen sts]|e] eqn:Hs;
      cbn [pbind fst snd].
    + rewrite compute_percentage_total. destruct (0 <? _); discriminate.
    + intro H. inversion H; subst.
      apply scan_raises_attribute_error_only in Hs. discriminate.
  - unfold ShinobiDeep.process_monitors.
    destruct monitors_data as [| | | | recs |]; try discriminate.
    destruct (ShinobiDeep.dscan _ _ _ recs) as [[[missing rc] sts]|e] eqn:Hs;
      cbn [pbind].
    + destruct (0 <? _) eqn:Ht; [|discriminate].
      rewrite py_truediv_nonzero by (apply Z.ltb_lt in Ht; lia). discriminate.
    + intro H. inversion H; subst.
      apply dscan_raises_type_error_only in Hs. discriminate.
  - intros Hnil H. unfold Shinobi.process_monitors in H. rewrite Hnil in H.
    destruct monitors_data as [| | | | [|r recs] |]; try (cbn in H; discriminate).
    destruct (scan [] [] (r :: recs)) as [[seen sts]|e];
      cbn [pbind summary_of fst snd] in H; [|discriminate].
    rewrite compute_percentage_total in H. cbn in H. inversion H. reflexivity.
  - intros Hnil H. unfold ShinobiDeep.process_monitors in H. rewrite Hnil in H.
    destruct monitors_data as [| | | | recs |]; try (cbn in H; inversion H; reflexivity).
    destruct (ShinobiDeep.dscan _ _ _ recs) as [[[missing rc] sts]|e];
      cbn [pbind summary_of] in H; [|discriminate].
    cbn in H. inversion H. reflexivity.
Qed.

Definition untracked_summary : option metrics :=
  Eval vm_compute in
    summary_of (Shinobi.process_monitors (JArr [rec_of "A" "record" "Recording"]) (cfg_of []) 0).

Definition untracked_deep_summary : option metrics :=
  Eval vm_compute in
    summary_of (ShinobiDeep.process_monitors (JArr [rec_of "A" "record" "Recording"])
                                             (deep_cfg_of [] 75) 0).

Lemma C6_zero_tracked_percentage_witness :
  monitor_ids (cfg_of []) = []
  /\ summary_of (Shinobi.process_monitors (JArr [rec_of "A" "record" "Recording"]) (cfg_of []) 0)
     = Some (metrics_or_zero untracked_summary)
  /\ percentage_recording (metrics_or_zero untracked_summary) = 0%Q
  /\ percentage_recording (metrics_or_zero untracked_deep_summary) = 0%Q.
Proof.
  pose proof (C6_zero_tracked_percentage (JArr [rec_of "A" "record" "Recording"]) (cfg_of [])
                (deep_cfg_of [] 75) 0 (metrics_or_zero untracked_summary)
                (metrics_or_zero untracked_deep_summary)) as [_ [_ [H3 H4]]].
  split; [reflexivity|]. split; [vm_compute; reflexivity|]. split.
  - apply H3; [reflexivity | vm_compute; reflexivity].
  - apply H4; [reflexivity | vm_compute; reflexivity].
Defined.

(** ** Missing monitors *)

Lemma str_in_ext : forall x l1 l2, (In x l1 <-> In x l2) -> str_in x l1 = str_in x l2.
Proof.
  intros x l1 l2 H. destruct (str_in x l1) eqn:H1, (str_in x l2) eqn:H2; try reflexivity.
  - apply str_in_iff, H, str_in_iff in H1. congruence.
  - apply str_in_iff, H, str_in_iff in H2. congruence.
Qed.

Lemma encountered_ids_cons : forall ids r recs,
  encountered_ids ids (r :: recs)
  = match r with
    | JObj kvs => match dget "mid" kvs with
                  | Some (JStr mid) => if str_in mid ids then [mid] else []
                  | _ => []
                  end
    | _ => []
    end ++ encountered_ids ids recs.
Proof. reflexivity. Qed.

(** [seen_ids] after the loop holds exactly the tracked identifiers the
    records carry. *)
Lemma scan_seen :
  forall ids recs seen seen' sts,
    scan ids seen recs = POk (seen', sts) ->
    forall x, In x seen' <-> In x seen \/ In x (encountered_ids ids recs).
Proof.
  intros ids recs. induction recs as [|r recs IH]; intros seen seen' sts Hs x.
  - cbn in Hs. inversion Hs; subst. cbn. tauto.
  - rewrite encountered_ids_cons.
    destruct r as [| | | | |kvs]; cbn in Hs; try discriminate.
    destruct (dget "mid" kvs) as [[| | | mid | |]|]; try (rewrite (IH _ _ _ Hs x); cbn; tauto).
    destruct (str_in mid ids) eqn:Hin; cbn [andb] in Hs.
    + destruct (negb (str_in mid seen)) eqn:Hnew.
      * destruct (scan ids (mid :: seen) recs) as [[s1 sts1]|e] eqn:Hr; cbn in Hs;
          [|discriminate].
        inversion Hs; subst. rewrite (IH _ _ _ Hr x). cbn. tauto.
      * apply negb_false_iff, str_in_iff in Hnew.
        rewrite (IH _ _ _ Hs x). cbn. split; [tauto|].
        intros [H|[<-|H]]; auto.
    + rewrite (IH _ _ _ Hs x). cbn. tauto.
Qed.

Lemma filter_filter_andb : forall {A} (f g : A -> bool) (l : list A),
  filter f (filter g l) = filter (fun x => g x && f x) l.
Proof.
  intros A f g l. induction l as [|x l IH]; cbn; [reflexivity|].
  destruct (g x); cbn; [destruct (f x); cbn; rewrite IH; reflexivity | exact IH].
Qed.

Lemma filter_all_true : forall {A} (f : A -> bool) (l : list A),
  (forall z, In z l -> f z = true) -> filter f l = l.
Proof.
  intros A f l. induction l as [|x l IH]; intros H; cbn; [reflexivity|].
  rewrite (H x (or_introl eq_refl)), IH; [reflexivity|]. intros z Hz. apply H. right. exact Hz.
Qed.

(** [missing_monitors.remove(mid)] on a list without duplicates. *)
Lemma remove_first_filter :
  forall x l, NoDup l ->
    (if str_in x l then ShinobiDeep.remove_first x l else l)
    = filter (fun y => negb (String.eqb y x)) l.
Proof.
  intros x l. induction l as [|y l IH]; intros Hnd; [reflexivity|].
  inversion Hnd as [|? ? Hy Hnd']; subst.
  cbn [str_in existsb ShinobiDeep.remove_first filter].
  destruct (String.eqb x y) eqn:Hxy.
  - apply String.eqb_eq in Hxy. subst y. cbn. rewrite String.eqb_refl. cbn.
    symmetry. apply filter_all_true. intros z Hz.
    destruct (String.eqb z x) eqn:Hzx; [apply String.eqb_eq in Hzx; subst; contradiction|].
    reflexivity.
  - cbn [orb]. rewrite String.eqb_sym, Hxy. cbn [negb].
    specialize (IH Hnd'). unfold str_in in IH.
    destruct (existsb (String.eqb x) l); rewrite <- IH; reflexivity.
Qed.

(** [shinobi_deep.py]'s [missing_monitors] after the loop, when it starts
    without duplicates. *)
Lemma dscan_missing :
  forall ids recs missing rc missing' rc' sts,
    NoDup missing ->
    ShinobiDeep.dscan ids missing rc recs = POk (missing', rc', sts) ->
    missing' = filter (fun x => negb (str_in x (encountered_ids ids recs))) missing.
Proof.
  intros ids recs. induction recs as [|r recs IH]; intros missing rc missing' rc' sts Hnd Hs.
  - cbn in Hs. inversion Hs; subst. cbn. symmetry. apply filter_all_true. reflexivity.
  - rewrite encountered_ids_cons.
    destruct r as [| | | | |kvs]; cbn in Hs; try discriminate.
    destruct (dget "mid" kvs) as [[| | | mid | |]|]; try (exact (IH _ _ _ _ _ Hnd Hs)).
    destruct (str_in mid ids) eqn:Hin; cbn [negb] in Hs.
    + destruct (ShinobiDeep.dscan ids _ _ recs) as [[[m1 c1] sts1]|e] eqn:Hr; cbn in Hs;
        [|discriminate].
      inversion Hs; subst. clear Hs.
      rewrite (remove_first_filter mid missing Hnd) in Hr.
      rewrite (IH _ _ _ _ _ (NoDup_filter _ Hnd) Hr).
      rewrite filter_filter_andb. apply filter_ext. intros x. cbn [app str_in existsb].
      destruct (String.eqb x mid); reflexivity.
    + exact (IH _ _ _ _ _ Hnd Hs).
Qed.

(** For every non-empty record list that [Shinobi.py]'s
    [process_monitors] accepts, [missing_monitors] is the tracked identifiers
    that are not encountered, in configured order; [shinobi_deep.py] gives
    the same list for every record list when [monitor_ids] has no
    duplicates; and on an empty list [Shinobi.py] returns no summary and no
    missing list. *)
Theorem missing_is_tracked_minus_encountered :
  forall (recs : list json) (config : Config) (dconfig : ShinobiDeep.DeepConfig) (t : Z)
         (p p' : processed),
    (recs <> [] ->
     Shinobi.process_monitors (JArr recs) config t = POk p ->
     p_missing p = Some (filter (fun mid => negb (str_in mid (encountered_ids (monitor_ids config) recs)))
                                (monitor_ids config)))
    /\ (NoDup (ShinobiDeep.deep_monitor_ids dconfig) ->
        ShinobiDeep.process_monitors (JArr recs) dconfig t = POk p' ->
        p_missing p' =
          Some (filter (fun mid => negb (str_in mid (encountered_ids (ShinobiDeep.deep_monitor_ids dconfig) recs)))
                       (ShinobiDeep.deep_monitor_ids dconfig)))
    /\ Shinobi.process_monitors (JArr []) config t
       = POk {| p_monitors := []; p_metrics := None; p_missing := None |}.
Proof.
  intros recs config dconfig t p p'. split; [|split; [|reflexivity]].
  - intros Hne H. unfold Shinobi.process_monitors in H.
    destruct recs as [|r recs]; [congruence|].
    destruct (scan (monitor_ids config) [] (r :: recs)) as [[seen sts]|e] eqn:Hs;
      cbn [pbind fst snd] in H; [|discriminate].
    rewrite compute_percentage_total in H.
    destruct (0 <? _); cbn in H; inversion H; subst; cbn; f_equal;
      apply filter_ext; intros x; f_equal; apply str_in_ext;
      rewrite (scan_seen _ _ _ _ _ Hs x); cbn; tauto.
  - intros Hnd H. unfold ShinobiDeep.process_monitors in H.
    destruct (ShinobiDeep.dscan _ _ _ recs) as [[[missing rc] sts]|e] eqn:Hs;
      cbn [pbind] in H; [|discriminate].
    rewrite (dscan_missing _ _ _ _ _ _ _ Hnd Hs) in H.
    destruct (0 <? _) eqn:Ht.
    + rewrite py_truediv_nonzero in H by (apply Z.ltb_lt in Ht; lia).
      cbn in H. inversion H. reflexivity.
    + cbn in H. inversion H. reflexivity.
Qed.

Definition b_only : list json := [rec_of "B" "record" "Recording"].

Definition b_only_result : pyresult processed :=
  Eval vm_compute in Shinobi.process_monitors (JArr b_only) (cfg_of ["A"; "B"; "C"]) 0.

Definition processed_or_empty (r : pyresult processed) : processed :=
  match r with
  | POk p => p
  | Raise _ => {| p_monitors := []; p_metrics := None; p_missing := None |}
  end.

(** The spec's example: tracked [["A"; "B"; "C"]], only "B" in the response. *)
Lemma missing_is_tracked_minus_encountered_witness :
  Shinobi.process_monitors (JArr b_only) (cfg_of ["A"; "B"; "C"]) 0
    = POk (processed_or_empty b_only_result)
  /\ p_missing (processed_or_empty b_only_result)
     = Some (filter (fun mid => negb (str_in mid (encountered_ids ["A"; "B"; "C"] b_only)))
                    ["A"; "B"; "C"])
  /\ filter (fun mid => negb (str_in mid (encountered_ids ["A"; "B"; "C"] b_only)))
            ["A"; "B"; "C"] = ["A"; "C"].
Proof.
  pose proof (missing_is_tracked_minus_encountered b_only (cfg_of ["A"; "B"; "C"])
                (deep_cfg_of ["A"; "B"; "C"] 75) 0 (processed_or_empty b_only_result)
                (processed_or_empty b_only_result)) as [H1 _].
  split; [vm_compute; reflexivity|]. split.
  - apply H1; [discriminate | vm_compute; reflexivity].
  - vm_compute. reflexivity.
Defined.

(** C7 (code bug): with the tracked identifier "A" listed twice,
    [shinobi_deep.py]'s [missing_monitors.remove(mid)] drops one copy for the
    one record of "A", so "A" is reported missing although it was
    encountered; [Shinobi.py]'s comprehension
    [[mid for mid in config.monitor_ids if mid not in seen_ids]] drops every
    copy and reports none. *)
Theorem C7_deep_duplicate_id_reported_missing :
  str_in "A" (encountered_ids ["A"; "A"] [rec_of "A" "record" "Recording"]) = true
  /\ missing_of (ShinobiDeep.process_monitors (JArr [rec_of "A" "record" "Recording"])
                                              (deep_cfg_of ["A"; "A"] 75) 0) = Some ["A"]
  /\ missing_of (Shinobi.process_monitors (JArr [rec_of "A" "record" "Recording"])
                                          (cfg_of ["A"; "A"]) 0) = Some [].
Proof. vm_compute. repeat split. Qed.

(** ** Outage duration in [server_check.py] *)

Lemma log_cycles_cons : forall tr st t rest,
  log_cycles tr ((st, t) :: rest)
  = (fst (log_cycles (fst (fst (log_host tr st t))) rest),
     snd (fst (log_host tr st t)) :: snd (log_cycles (fst (fst (log_host tr st t))) rest)).
Proof.
  intros tr st t rest. cbn [log_cycles].
  destruct (log_host tr st t) as [[tr' r] a].
  destruct (log_cycles tr' rest) eqn:E. cbn. rewrite E. reflexivity.
Qed.

Lemma log_cycles_nonempty : forall tr obs, obs <> [] -> snd (log_cycles tr obs) <> [].
Proof.
  intros tr [|[st t] rest] H; [congruence|]. rewrite log_cycles_cons. discriminate.
Qed.

Lemma last_cons_nonempty : forall {A} (x : A) l d, l <> [] -> last (x :: l) d = last l d.
Proof. intros A x [|y l] d H; [congruence | reflexivity]. Qed.

(** The first Down probe after a non-Down status records the down time. *)
Lemma log_host_first_down : forall tr t,
  last_status tr <> Some Down ->
  last_status (fst (fst (log_host tr Down t))) = Some Down
  /\ last_down_time (fst (fst (log_host tr Down t))) = Some t.
Proof.
  intros tr t H. unfold log_host.
  destruct (last_status tr) as [[|]|]; [| congruence |];
    destruct (notification_sent tr); cbn; split; reflexivity.
Qed.

(** Later Down probes keep it. *)
Lemma log_host_still_down : forall tr t td,
  last_status tr = Some Down -> last_down_time tr = Some td ->
  last_status (fst (fst (log_host tr Down t))) = Some Down
  /\ last_down_time (fst (fst (log_host tr Down t))) = Some td.
Proof.
  intros tr t td H1 H2. unfold log_host. rewrite H1.
  destruct (notification_sent tr); cbn; rewrite H2; split; reflexivity.
Qed.

(** The Up probe after an outage computes the duration. *)
Lemma log_host_recovery : forall tr tu td,
  last_status tr = Some Down -> last_down_time tr = Some td ->
  row_duration (snd (fst (log_host tr Up tu))) = Some (round2 (inject_Z (tu - td) / 60))
  /\ notification_sent (fst (fst (log_host tr Up tu))) = false.
Proof.
  intros tr tu td H1 H2. unfold log_host. rewrite H1, H2. cbn. split; reflexivity.
Qed.

Definition empty_row : row :=
  {| row_time := 0; row_status := Up; row_up_time := None; row_duration := None |}.

Lemma log_cycles_outage : forall tdowns tr td tu,
  last_status tr = Some Down -> last_down_time tr = Some td ->
  row_duration (last (snd (log_cycles tr (map (fun t => (Down, t)) tdowns ++ [(Up, tu)])))
                     empty_row)
  = Some (round2 (inject_Z (tu - td) / 60)).
Proof.
  intros tdowns. induction tdowns as [|t tdowns IH]; intros tr td tu H1 H2.
  - cbn [map app]. rewrite log_cycles_cons. cbn [log_cycles snd last].
    apply (log_host_recovery tr tu td H1 H2).
  - cbn [map app]. rewrite log_cycles_cons. cbn [snd].
    rewrite last_cons_nonempty
      by (apply log_cycles_nonempty; destruct tdowns; discriminate).
    destruct (log_host_still_down tr t td H1 H2) as [H1' H2'].
    exact (IH _ td tu H1' H2').
Qed.

(** C8: a host whose status goes from anything but Down to Down at time
    [td], stays Down for any number of cycles, and is Up at time [tu] gets,
    on the row of the Up cycle, the duration [round((tu - td) / 60, 2)]
    minutes, measured from the first Down cycle. *)
Theorem C8_outage_duration :
  forall (tr : tracker) (td tu : Z) (tdowns : list Z),
    last_status tr <> Some Down ->
    row_duration (last (snd (log_cycles tr ((Down, td) :: map (fun t => (Down, t)) tdowns
                                                         ++ [(Up, tu)])))
                       empty_row)
    = Some (round2 (inject_Z (tu - td) / 60)).
Proof.
  intros tr td tu tdowns H.
  rewrite log_cycles_cons. cbn [snd].
  rewrite last_cons_nonempty
    by (apply log_cycles_nonempty; destruct tdowns; discriminate).
  destruct (log_host_first_down tr td H) as [H1 H2].
  exact (log_cycles_outage tdowns _ td tu H1 H2).
Qed.

(** Down at 10:00:00 (36000 s into the day), Up at 10:07:30 (36450 s):
    a duration of 7.5 minutes. *)
Lemma C8_outage_duration_witness :
  last_status init_tracker <> Some Down
  /\ row_duration (last (snd (log_cycles init_tracker [(Down, 36000); (Up, 36450)])) empty_row)
     = Some (round2 (inject_Z (36450 - 36000) / 60))
  /\ Qeq_bool (round2 (inject_Z (36450 - 36000) / 60)) (15 # 2) = true.
Proof.
  split; [discriminate|]. split.
  - exact (C8_outage_duration init_tracker 36000 36450 [] ltac:(discriminate)).
  - vm_compute. reflexivity.
Defined.

(** ** The two-stage probe *)

(** C9: [ping_server] tries once; only on failure does it wait 120 s and try
    a second time. The host is Up iff one of the two attempts succeeds, and
    Down only when both fail. *)
Theorem C9_two_stage_probe :
  forall first second : attempt,
    (fst (ping_server first second) = Up <-> try_ping first = true \/ try_ping second = true)
    /\ (fst (ping_server first second) = Down
        <-> try_ping first = false /\ try_ping second = false)
    /\ snd (ping_server first second)
       = if try_ping first then [Try] else [Try; Wait 120; Try].
Proof.
  intros first second. unfold ping_server.
  destruct (try_ping first), (try_ping second); cbn;
    repeat split; intuition congruence.
Qed.

Example ping_retry_recovers :
  ping_server {| att_ping3 := P3None; att_system := SysReturn 1 |}
              {| att_ping3 := P3Time (12 # 1); att_system := SysReturn 0 |}
  = (Up, [Try; Wait 120; Try]).
Proof. reflexivity. Qed.

(** ** Cycles without monitor data *)

Definition persists (x : effect) : bool :=
  match x with SaveMetrics | AppendRow => true | _ => false end.

Lemma give_up_or_sleep_no_persist : forall config e s,
  existsb persists (snd (give_up_or_sleep config e s)) = false.
Proof.
  intros config e s. unfold give_up_or_sleep, trigger_apps_script.
  destruct (_ <=? _); [destruct (String.eqb _ _)|]; reflexivity.
Qed.

Lemma process_monitors_no_data : forall monitors_data config t,
  (forall r rs, monitors_data <> JArr (r :: rs)) ->
  Shinobi.process_monitors monitors_data config t
  = POk {| p_monitors := []; p_metrics := None; p_missing := None |}.
Proof.
  intros monitors_data config t H. unfold Shinobi.process_monitors.
  destruct monitors_data as [| | | | [|r rs] |]; try reflexivity.
  exfalso. exact (H r rs eq_refl).
Qed.

Lemma existsb_persists_in : forall effs,
  existsb persists effs = false -> ~ In SaveMetrics effs /\ ~ In AppendRow effs.
Proof.
  intros effs H. split; intro Hin;
    assert (existsb persists effs = true) by (apply existsb_exists; eexists; split;
                                                [exact Hin | reflexivity]);
    congruence.
Qed.

(** C10: in [Shinobi.py]'s loop, an iteration in which [get_all_monitors]
    returns [None], or returns something other than a non-empty list (so
    that [process_monitors] returns empty metrics), calls neither
    [save_metrics] nor [append_row]. *)
Theorem C10_no_data_no_persist :
  forall (config : Config) (s : loop_state) (e : cycle_env),
    (env_fetch e = None
     \/ exists d, env_fetch e = Some d /\ forall r rs, d <> JArr (r :: rs)) ->
    ~ In SaveMetrics (snd (cycle config s e)) /\ ~ In AppendRow (snd (cycle config s e)).
Proof.
  intros config s e Hf. apply existsb_persists_in. unfold cycle.
  destruct (String.eqb (env_health e) "OK"); cbn [negb].
  - destruct Hf as [-> | [d [-> Hd]]].
    + apply give_up_or_sleep_no_persist.
    + rewrite (process_monitors_no_data d config (env_local e) Hd). reflexivity.
  - destruct (_ || _).
    + unfold trigger_apps_script at 1. destruct (String.eqb (apps_script_url config) "").
      * destruct (give_up_or_sleep _ _ _) as [d effs] eqn:Hg. cbn.
        pose proof (give_up_or_sleep_no_persist config e
                      {| consecutive_failures := consecutive_failures s + 1;
                         last_notification_time := last_notification_time s;
                         server_was_up := false |}) as Hn.
        rewrite Hg in Hn. exact Hn.
      * destruct (give_up_or_sleep _ _ _) as [d effs] eqn:Hg. cbn.
        match type of Hg with give_up_or_sleep _ _ ?st = _ =>
          pose proof (give_up_or_sleep_no_persist config e st) as Hn end.
        rewrite Hg in Hn. exact Hn.
    + destruct (give_up_or_sleep _ _ _) as [d effs] eqn:Hg. cbn.
      match type of Hg with give_up_or_sleep _ _ ?st = _ =>
        pose proof (give_up_or_sleep_no_persist config e st) as Hn end.
      rewrite Hg in Hn. exact Hn.
Qed.

Lemma C10_no_data_no_persist_witness :
  (env_fetch (fetch_failure 100) = None
   \/ exists d, env_fetch (fetch_failure 100) = Some d /\ forall r rs, d <> JArr (r :: rs))
  /\ ~ In SaveMetrics (snd (cycle (cfg_of ["A"]) init_state (fetch_failure 100)))
  /\ ~ In AppendRow (snd (cycle (cfg_of ["A"]) init_state
                           {| env_health := "OK"; env_time := 100; env_post_ok := true;
                              env_fetch := Some (JArr []); env_local := 100 |})).
Proof.
  split; [left; reflexivity|]. split.
  - apply (C10_no_data_no_persist (cfg_of ["A"]) init_state (fetch_failure 100)).
    left. reflexivity.
  - apply (C10_no_data_no_persist (cfg_of ["A"]) init_state
             {| env_health := "OK"; env_time := 100; env_post_ok := true;
                env_fetch := Some (JArr []); env_local := 100 |}).
    right. exists (JArr []). split; [reflexivity | intros r rs H; discriminate].
Defined.

(* ========================================================================= *)
(** * Further properties of the code *)

Import ShinobiHTTP SheetsClient MetricsFiles Workbook.

(** ** Health check and monitor fetch *)

(** [health_check] reports ["OK"] exactly for the HTTP outcomes on which
    [get_all_monitors] returns data: both methods reject the same statuses,
    bodies and exceptions. *)
Theorem health_ok_iff_monitors_fetched (o : http_outcome) :
  health_check o = "OK" <-> get_all_monitors o <> None.
Proof.
  destruct o as [| | | |code [data|]]; cbn;
    try destruct (raise_for_status code); try destruct (api_error data);
    (split; [discriminate | intros H; exfalso; apply H; reflexivity])
    || (split; [discriminate | reflexivity]).
Qed.

(** [shinobi_deep.py]'s [get_all_monitors] returns data exactly when
    [Shinobi.py]'s returns a list, and then the same data; its status is
    ["success"] exactly when it returns data. *)
Theorem deep_fetch_refines (o : http_outcome) :
  (forall data, fst (DeepHTTP.get_all_monitors o) = Some data <->
                get_all_monitors o = Some data /\ DeepHTTP.is_list data = true) /\
  (snd (DeepHTTP.get_all_monitors o) = DeepHTTP.FetchSuccess <->
   fst (DeepHTTP.get_all_monitors o) <> None).
Proof.
  unfold DeepHTTP.get_all_monitors, get_all_monitors.
  destruct o as [| | | |code [d|]];
    try destruct (raise_for_status code);
    try destruct (api_error d);
    try destruct (DeepHTTP.is_list d) eqn:Hl; cbn [fst snd negb];
    (split; [intros data|]); intuition congruence.
Qed.

(** The summary of [Shinobi.py] on a concrete input. *)
Definition sample_summary : metrics :=
  Eval vm_compute in
    match summary_of (Shinobi.process_monitors
                        (JArr [rec_of "A" "record" "Recording"; rec_of "B" "start" "Watching"])
                        (cfg_of ["A"; "B"; "C"]) 0) with
    | Some m => m
    | None => {| m_date := 0; m_time := 0; total_cameras := 0; recording := 0;
                 not_recording := 0; percentage_recording := 0; threshold_met := "No" |}
    end.

Lemma shinobi_recording_le_total_witness :
  summary_of (Shinobi.process_monitors
                (JArr [rec_of "A" "record" "Recording"; rec_of "B" "start" "Watching"])
                (cfg_of ["A"; "B"; "C"]) 0) = Some sample_summary /\
  0 <= recording sample_summary <= total_cameras sample_summary.
Proof.
  split; [vm_compute; reflexivity|].
  apply (shinobi_recording_le_total
           (JArr [rec_of "A" "record" "Recording"; rec_of "B" "start" "Watching"])
           (cfg_of ["A"; "B"; "C"]) 0).
  vm_compute. reflexivity.
Defined.

(** ** [append_row] *)

Definition is_append (e : sheet_event) : bool :=
  match e with AppendCall => true | _ => false end.

Definition count_appends (evs : list sheet_event) : nat := List.length (filter is_append evs).

Lemma append_attempts_succeeds (factor : Q) (ok : nat -> bool) (n k : nat) :
  fst (append_attempts factor ok n k) = true <->
  exists j, (k <= j < k + n)%nat /\ ok j = true.
Proof.
  revert k. induction n as [|n IH]; intros k; cbn.
  - split; [discriminate | intros [j [Hj _]]; lia].
  - destruct (ok k) eqn:Hk.
    + split; [intros _; exists k; split; [lia | exact Hk] | reflexivity].
    + destruct (append_attempts factor ok n (S k)) as [r evs] eqn:E. cbn.
      specialize (IH (S k)). rewrite E in IH. cbn in IH. rewrite IH.
      split; intros [j [Hj Hok]]; exists j; split; auto; try lia.
      destruct (Nat.eq_dec j k) as [->|]; [congruence | lia].
Qed.

(** [src/Shinobi.py] [append_row] returns [True] exactly when the sheet is
    initialised and one of the first [max_retries] append attempts succeeds;
    with [max_retries <= 0] it never appends. *)
Theorem append_row_succeeds_iff (sheet_ready : bool) (max_retries : Z) (factor : Q)
  (ok : nat -> bool) :
  fst (append_row sheet_ready max_retries factor ok) = true <->
  sheet_ready = true /\ exists k, (k < Z.to_nat max_retries)%nat /\ ok k = true.
Proof.
  unfold append_row. destruct sheet_ready; cbn.
  - rewrite append_attempts_succeeds.
    split; [intros [j [Hj Hok]]; split; [reflexivity | exists j; split; [lia | exact Hok]]
           | intros [_ [j [Hj Hok]]]; exists j; split; [lia | exact Hok]].
  - split; [discriminate | intros [H _]; discriminate].
Qed.

Lemma append_attempts_all_fail (factor : Q) (ok : nat -> bool) (n k : nat)
  (Hfail : forall j, (k <= j < k + n)%nat -> ok j = false) :
  append_attempts factor ok n k =
  (false, flat_map (fun j => [AppendCall; SleepFor (backoff factor j)]) (seq k n)).
Proof.
  revert k Hfail. induction n as [|n IH]; intros k Hfail; cbn; [reflexivity|].
  rewrite (Hfail k) by lia.
  rewrite (IH (S k)) by (intros j Hj; apply Hfail; lia). reflexivity.
Qed.

(** [src/Shinobi.py] [append_row], when every attempt fails: [max_retries]
    append calls, each followed by a sleep of [retry_backoff_factor * 2^k]
    seconds, the last one included, before returning [False]. *)
Theorem append_row_all_fail_trace (max_retries : Z) (factor : Q) (ok : nat -> bool)
  (Hfail : forall k, (k < Z.to_nat max_retries)%nat -> ok k = false) :
  append_row true max_retries factor ok =
  (false, flat_map (fun k => [AppendCall; SleepFor (backoff factor k)])
                   (seq 0 (Z.to_nat max_retries))).
Proof.
  unfold append_row. apply append_attempts_all_fail.
  intros j Hj. apply Hfail. lia.
Qed.

Lemma append_row_all_fail_trace_witness :
  append_row true 3 1 (fun _ => false) =
  (false, [AppendCall; SleepFor 1; AppendCall; SleepFor 2;
           AppendCall; SleepFor 4]).
Proof.
  rewrite (append_row_all_fail_trace 3 1 (fun _ => false)) by (intros; reflexivity).
  reflexivity.
Defined.

Lemma last_app_nonempty {A} (l1 l2 : list A) (d : A) :
  l2 <> [] -> last (l1 ++ l2) d = last l2 d.
Proof.
  intros Hne. induction l1 as [|x l1 IH]; cbn; [reflexivity|].
  rewrite IH. destruct (l1 ++ l2) eqn:E; [|reflexivity].
  apply app_eq_nil in E. destruct E as [_ E]. contradiction.
Qed.

Lemma deep_attempts_nonempty (max_retries : Z) (factor : Q) (init : nat -> bool)
  (outcome : nat -> append_outcome) (n attempt i : nat) :
  snd (deep_attempts max_retries factor init outcome (S n) attempt i) <> [].
Proof.
  cbn. destruct (outcome attempt) as [|code| |]; try discriminate.
  destruct ((code =? 401) || (code =? 403)); [destruct (init i)|]; discriminate.
Qed.

Lemma count_appends_app (l1 l2 : list sheet_event) :
  count_appends (l1 ++ l2) = (count_appends l1 + count_appends l2)%nat.
Proof. unfold count_appends. rewrite filter_app, length_app. reflexivity. Qed.

Lemma after_failure_count (max_retries : Z) (factor : Q) (attempt : nat)
  (evs : list sheet_event) (res : (bool * string) * list sheet_event) :
  count_appends evs = O ->
  count_appends (snd (after_failure max_retries factor attempt evs res)) =
  S (count_appends (snd res)).
Proof.
  intros H0. unfold after_failure. cbn [snd].
  change (AppendCall :: ?l) with ([AppendCall] ++ l).
  rewrite !count_appends_app, H0.
  destruct (Z.of_nat attempt <? max_retries)%Z; reflexivity.
Qed.

Lemma deep_attempts_bounded (max_retries : Z) (factor : Q) (init : nat -> bool)
  (outcome : nat -> append_outcome) (n attempt i : nat) :
  (count_appends (snd (deep_attempts max_retries factor init outcome n attempt i)) <= n)%nat /\
  ((max_retries + 1 <= Z.of_nat attempt + Z.of_nat n)%Z ->
   forall secs,
     last (snd (deep_attempts max_retries factor init outcome n attempt i)) AppendCall
     <> SleepFor secs).
Proof.
  revert attempt i. induction n as [|n IH]; intros attempt i.
  - split; [cbn; lia | intros _ secs; cbn; discriminate].
  - assert (Hfail : forall evs i',
               count_appends evs = O ->
               (forall secs, last (AppendCall :: evs) AppendCall <> SleepFor secs) ->
               (count_appends (snd (after_failure max_retries factor attempt evs
                  (deep_attempts max_retries factor init outcome n (S attempt) i'))) <= S n)%nat /\
               ((max_retries + 1 <= Z.of_nat attempt + Z.of_nat (S n))%Z ->
                forall secs,
                  last (snd (after_failure max_retries factor attempt evs
                     (deep_attempts max_retries factor init outcome n (S attempt) i')))
                     AppendCall <> SleepFor secs)).
    { intros evs i' H0 Hlast. destruct (IH (S attempt) i') as [Hc Hl]. split.
      - rewrite after_failure_count by exact H0. lia.
      - intros Hb secs. unfold after_failure. cbn [snd].
        destruct n as [|n'].
        + cbn [deep_attempts snd].
          replace (Z.of_nat attempt <? max_retries)%Z with false by (symmetry; apply Z.ltb_ge; lia).
          rewrite !app_nil_r. apply Hlast.
        + change (AppendCall :: ?l) with ([AppendCall] ++ l). rewrite !app_assoc.
          rewrite last_app_nonempty by apply deep_attempts_nonempty.
          apply Hl. lia. }
    cbn [deep_attempts]. destruct (outcome attempt) as [|code| |].
    + split; [cbn; lia | intros _ secs; cbn; discriminate].
    + destruct ((code =? 401) || (code =? 403)).
      * destruct (init i).
        -- apply Hfail; [reflexivity | intros secs; cbn; discriminate].
        -- split; [cbn; lia | intros _ secs; cbn; discriminate].
      * apply Hfail; [reflexivity | intros secs; cbn; discriminate].
    + apply Hfail; [reflexivity | intros secs; cbn; discriminate].
    + split; [cbn; lia | intros _ secs; cbn; discriminate].
Qed.

(** [src/shinobi_deep.py] [append_row], whatever the sheet, the
    re-initialisations and the append outcomes: at most [max_retries + 1]
    append calls, and the call sequence never ends with a sleep (no backoff
    after the final attempt). *)
Theorem deep_append_row_bounded (sheet_ready : bool) (max_retries : Z) (factor : Q)
  (init : nat -> bool) (outcome : nat -> append_outcome) :
  let evs := snd (deep_append_row sheet_ready max_retries factor init outcome) in
  (count_appends evs <= Z.to_nat (max_retries + 1))%nat /\
  forall pre secs, evs <> pre ++ [SleepFor secs].
Proof.
  cbn zeta.
  assert (Hb : (max_retries + 1 <= Z.of_nat O + Z.of_nat (Z.to_nat (max_retries + 1)))%Z
               \/ Z.to_nat (max_retries + 1) = O).
  { destruct (Z_le_gt_dec 0 (max_retries + 1)); [left; lia | right; lia]. }
  assert (Hgen : forall i,
             (count_appends (snd (deep_attempts max_retries factor init outcome
                                     (Z.to_nat (max_retries + 1)) O i))
              <= Z.to_nat (max_retries + 1))%nat /\
             forall secs,
               last (snd (deep_attempts max_retries factor init outcome
                            (Z.to_nat (max_retries + 1)) O i)) AppendCall <> SleepFor secs).
  { intros i. destruct (deep_attempts_bounded max_retries factor init outcome
                          (Z.to_nat (max_retries + 1)) O i) as [Hc Hl].
    split; [exact Hc|]. destruct Hb as [H|H]; [exact (Hl H)|].
    intros secs. rewrite H. cbn. discriminate. }
  assert (Hlast : forall evs, (forall secs, last evs AppendCall <> SleepFor secs) ->
                  forall pre secs, evs <> pre ++ [SleepFor secs]).
  { intros evs Hl pre secs ->. apply (Hl secs). apply last_last. }
  unfold deep_append_row. destruct sheet_ready.
  - destruct (Hgen O) as [Hc Hl]. split; [exact Hc | apply Hlast, Hl].
  - destruct (init O).
    + destruct (deep_attempts _ _ _ _ _ _ _) as [r evs] eqn:E.
      destruct (Hgen 1%nat) as [Hc Hl]. rewrite E in Hc, Hl. cbn [snd] in *.
      split.
      * change (Reinit :: evs) with ([Reinit] ++ evs). rewrite count_appends_app. exact Hc.
      * apply Hlast. intros secs. destruct evs as [|e evs'].
        -- cbn. discriminate.
        -- change (Reinit :: e :: evs') with ([Reinit] ++ e :: evs').
           rewrite last_app_nonempty by discriminate. apply Hl.
    + split; [cbn; lia | apply Hlast; intros secs; cbn; discriminate].
Qed.

Lemma deep_attempts_all_fail (max_retries : Z) (factor : Q) (init : nat -> bool)
  (outcome : nat -> append_outcome) (n attempt i : nat)
  (Hfail : forall j, (attempt <= j < attempt + n)%nat -> outcome j = ANetworkError) :
  deep_attempts max_retries factor init outcome n attempt i =
  ((false, "Max retries exceeded"),
   flat_map (fun j => AppendCall :: (if (Z.of_nat j <? max_retries)%Z
                                     then [SleepFor (backoff factor j)] else []))
            (seq attempt n)).
Proof.
  revert attempt Hfail. induction n as [|n IH]; intros attempt Hfail; [reflexivity|].
  cbn [deep_attempts]. rewrite (Hfail attempt) by lia.
  rewrite IH by (intros j Hj; apply Hfail; lia). reflexivity.
Qed.

(** [src/shinobi_deep.py] [append_row] on an initialised sheet when every
    attempt fails with a network or non-auth API error: [max_retries + 1]
    append calls, each but the last followed by a sleep of
    [retry_backoff_factor * 2^k] seconds, then [(False, "Max retries exceeded")]. *)
Theorem deep_append_row_all_fail_trace (max_retries : Z) (factor : Q)
  (init : nat -> bool) (outcome : nat -> append_outcome)
  (Hfail : forall k, (k < Z.to_nat (max_retries + 1))%nat -> outcome k = ANetworkError) :
  deep_append_row true max_retries factor init outcome =
  ((false, "Max retries exceeded"),
   flat_map (fun k => AppendCall :: (if (Z.of_nat k <? max_retries)%Z
                                     then [SleepFor (backoff factor k)] else []))
            (seq 0 (Z.to_nat (max_retries + 1)))).
Proof.
  unfold deep_append_row. apply deep_attempts_all_fail.
  intros j Hj. apply Hfail. lia.
Qed.

Lemma deep_append_row_all_fail_trace_witness :
  deep_append_row true 2 1 (fun _ => true) (fun _ => ANetworkError) =
  ((false, "Max retries exceeded"),
   [AppendCall; SleepFor 1; AppendCall; SleepFor 2; AppendCall]).
Proof.
  rewrite (deep_append_row_all_fail_trace 2 1 (fun _ => true) (fun _ => ANetworkError))
    by (intros; reflexivity).
  reflexivity.
Defined.

(** ** [save_metrics] *)

Lemma string_append_assoc (a b c : string) : ((a ++ b) ++ c)%string = (a ++ (b ++ c))%string.
Proof. induction a as [|x a IH]; cbn; [reflexivity | rewrite IH; reflexivity]. Qed.

Lemma list_ascii_of_string_app (a b : string) :
  list_ascii_of_string (a ++ b) = list_ascii_of_string a ++ list_ascii_of_string b.
Proof. induction a as [|x a IH]; cbn; [reflexivity | rewrite IH; reflexivity]. Qed.

Lemma prefix_app (p s : string) : String.prefix p (p ++ s) = true.
Proof.
  induction p as [|x p IH]; cbn; [destruct s; reflexivity|].
  destruct (Ascii.ascii_dec x x); [exact IH | contradiction].
Qed.

Lemma ends_with_app (s suf : string) : ends_with (s ++ suf) suf = true.
Proof.
  unfold ends_with. rewrite list_ascii_of_string_app, length_app.
  replace (List.length (list_ascii_of_string s) + List.length (list_ascii_of_string suf)
           - List.length (list_ascii_of_string suf))%nat
    with (List.length (list_ascii_of_string s)) by lia.
  rewrite skipn_app, skipn_all, Nat.sub_diag, app_nil_l.
  change (skipn 0 ?l) with l.
  destruct (list_eq_dec Ascii.ascii_dec _ _); [reflexivity | contradiction].
Qed.

Lemma is_data_file_name (timestamp : string) : is_data_file (data_file_name timestamp) = true.
Proof.
  unfold is_data_file, data_file_name, starts_with. rewrite prefix_app. cbn [andb].
  rewrite <- string_append_assoc. apply ends_with_app.
Qed.

Lemma write_file_new (d : dir) (name : string) (t : Q) : In (name, t) (write_file d name t).
Proof.
  unfold write_file. destruct (existsb _ d) eqn:E.
  - apply existsb_exists in E. destruct E as [e [He Hn]].
    apply in_map_iff. exists e. split; [|exact He]. rewrite Hn. reflexivity.
  - apply in_or_app. right. left. reflexivity.
Qed.

Lemma write_file_in (d : dir) (name : string) (t : Q) (e : string * Q) :
  In e (write_file d name t) <-> (e = (name, t) /\ In (name, t) (write_file d name t))
                                 \/ (fst e <> name /\ In e d).
Proof.
  split.
  - intros Hin. destruct (String.eqb (fst e) name) eqn:En.
    + left. split; [|exact (write_file_new d name t)].
      apply String.eqb_eq in En. unfold write_file in Hin. destruct (existsb _ d) eqn:Ex.
      * apply in_map_iff in Hin. destruct Hin as [e' [He' _]].
        destruct (String.eqb (fst e') name) eqn:E'; [congruence|].
        subst e'. rewrite En in E'. rewrite String.eqb_refl in E'. discriminate.
      * apply in_app_or in Hin. destruct Hin as [Hin|[<-|[]]]; [|reflexivity].
        exfalso. assert (Hx : existsb (fun e => String.eqb (fst e) name) d = true)
          by (apply existsb_exists; exists e; split; [exact Hin | rewrite En; apply String.eqb_refl]).
        congruence.
    + right. split; [intros Hn; apply String.eqb_neq in En; contradiction|].
      unfold write_file in Hin. destruct (existsb _ d).
      * apply in_map_iff in Hin. destruct Hin as [e' [He' Hin']].
        destruct (String.eqb (fst e') name) eqn:E'; [|congruence].
        subst e. cbn in En. rewrite String.eqb_refl in En. discriminate.
      * apply in_app_or in Hin. destruct Hin as [Hin|[<-|[]]]; [exact Hin|].
        cbn in En. rewrite String.eqb_refl in En. discriminate.
  - intros [[-> H]|[Hn Hin]]; [exact H|].
    unfold write_file. destruct (existsb _ d).
    + apply in_map_iff. exists e. split; [|exact Hin].
      apply String.eqb_neq in Hn. rewrite Hn. reflexivity.
    + apply in_or_app. left. exact Hin.
Qed.

(** [src/Shinobi.py] [save_metrics]: it returns the name of the file it
    wrote; that file survives the cleanup exactly when its modification time
    is not older than [time.time() - log_retention_days * 86400] or its
    removal fails (so with [log_retention_days <= 0] the freshly written file
    is deleted as soon as the clock has moved); the cleanup adds nothing else,
    and it removes no entry other than [monitor_data_*.json] files older than
    the cutoff. *)
Theorem save_metrics_retention (d : dir) (timestamp : string) (t_write t_now : Q)
  (log_retention_days : Z) (remove_ok : string -> bool) :
  let cutoff := (t_now - inject_Z (log_retention_days * 86400))%Q in
  let res := save_metrics d timestamp t_write t_now log_retention_days remove_ok in
  snd res = data_file_name timestamp /\
  (In (snd res, t_write) (fst res) <-> (cutoff <= t_write)%Q \/ remove_ok (snd res) = false) /\
  (forall e, In e (fst res) -> e = (snd res, t_write) \/ In e d) /\
  (forall e, In e d -> fst e <> snd res ->
             ~ (is_data_file (fst e) = true /\ (snd e < cutoff)%Q) -> In e (fst res)).
Proof.
  cbn zeta. unfold save_metrics, cleanup. cbn [fst snd].
  set (name := data_file_name timestamp).
  set (cutoff := (t_now - inject_Z (log_retention_days * 86400))%Q).
  split; [reflexivity|]. split; [|split].
  - rewrite filter_In. cbn [fst snd]. assert (Hd : is_data_file name = true) by apply is_data_file_name.
    rewrite Hd. cbn [andb negb].
    split.
    + intros [_ H]. destruct (Qle_bool cutoff t_write) eqn:Hq.
      * left. apply Qle_bool_iff. exact Hq.
      * right. destruct (remove_ok name); [discriminate | reflexivity].
    + intros H. split; [apply write_file_new|].
      destruct H as [H|H].
      * apply Qle_bool_iff in H. rewrite H. reflexivity.
      * rewrite H. rewrite andb_false_r. reflexivity.
  - intros e Hin. apply filter_In in Hin. destruct Hin as [Hin _].
    apply write_file_in in Hin. destruct Hin as [[-> _]|[_ Hin]]; [left | right]; auto.
  - intros e Hin Hn Hold. apply filter_In. split.
    + apply write_file_in. right. split; assumption.
    + destruct (is_data_file (fst e)) eqn:Hd; [|reflexivity].
      destruct (Qle_bool cutoff (snd e)) eqn:Hq; [reflexivity|].
      exfalso. apply Hold. split; [reflexivity|].
      apply Qnot_le_lt. intros Hle. apply Qle_bool_iff in Hle. congruence.
Qed.

(** Entries removed by [deep_save_metrics]: every name of the popped files. *)
Definition remove_all (files : list (string * Q)) (d : dir) : dir :=
  fold_left (fun acc e => remove_entry (fst e) acc) files d.

Definition names_in (files : list (string * Q)) (name : string) : bool :=
  existsb (fun x => String.eqb name (fst x)) files.

Definition is_status_file (e : string * Q) : bool := starts_with (fst e) "monitor_statuses".

Definition count_status_files (d : dir) : nat := List.length (filter is_status_file d).

Lemma remove_all_filter (files : list (string * Q)) (d : dir) :
  remove_all files d = filter (fun e => negb (names_in files (fst e))) d.
Proof.
  revert d. induction files as [|x files IH]; intros d; cbn.
  - symmetry. apply filter_all_true. reflexivity.
  - rewrite IH. unfold remove_entry. rewrite filter_filter_andb.
    apply filter_ext. intros e. cbn. rewrite negb_orb. reflexivity.
Qed.

Lemma rotate_nonpositive (max_log_files : Z) (remove_ok : string -> bool)
  (files : list (string * Q)) (d : dir) :
  (max_log_files <= 0)%Z -> (forall n, remove_ok n = true) ->
  rotate max_log_files remove_ok files d = (remove_all files d, false).
Proof.
  intros Hmax Hok. revert d. induction files as [|[n q] rest IH]; intros d; cbn.
  - replace (max_log_files <=? 0)%Z with true by (symmetry; apply Z.leb_le; lia). reflexivity.
  - replace (max_log_files <=? Z.pos (Pos.of_succ_nat (List.length rest)))%Z with true
      by (symmetry; apply Z.leb_le; lia).
    rewrite Hok. apply IH.
Qed.

Lemma rotate_positive (max_log_files : Z) (remove_ok : string -> bool)
  (files : list (string * Q)) (d : dir) :
  (1 <= max_log_files)%Z -> (forall n, remove_ok n = true) ->
  rotate max_log_files remove_ok files d =
  (remove_all (firstn (Z.to_nat (Z.of_nat (List.length files) - max_log_files + 1)) files) d,
   true).
Proof.
  intros Hmax Hok. revert d. induction files as [|[n q] rest IH]; intros d.
  - cbn. replace (max_log_files <=? 0)%Z with false by (symmetry; apply Z.leb_gt; lia).
    rewrite firstn_nil. reflexivity.
  - cbn [rotate]. destruct (max_log_files <=? Z.of_nat (List.length ((n, q) :: rest)))%Z eqn:Hle.
    + apply Z.leb_le in Hle. cbn [List.length] in *. rewrite Hok, IH.
      replace (Z.to_nat (Z.of_nat (S (List.length rest)) - max_log_files + 1))
        with (S (Z.to_nat (Z.of_nat (List.length rest) - max_log_files + 1))) by lia.
      reflexivity.
    + apply Z.leb_gt in Hle.
      replace (Z.to_nat (Z.of_nat (List.length ((n, q) :: rest)) - max_log_files + 1))
        with O by lia. reflexivity.
Qed.

Lemma insert_by_mtime_in (x y : string * Q) (l : list (string * Q)) :
  In y (insert_by_mtime x l) <-> x = y \/ In y l.
Proof.
  induction l as [|z l IH]; cbn; [tauto|].
  destruct (Qle_bool (snd z) (snd x)); cbn; rewrite ?IH; tauto.
Qed.

Lemma sort_by_mtime_in (y : string * Q) (l : list (string * Q)) :
  In y (sort_by_mtime l) <-> In y l.
Proof.
  unfold sort_by_mtime.
  assert (H : forall acc, In y (fold_left (fun acc x => insert_by_mtime x acc) l acc)
                          <-> In y acc \/ In y l).
  { induction l as [|x l IH]; intros acc; cbn; [tauto|].
    rewrite IH, insert_by_mtime_in. intuition congruence. }
  rewrite H. cbn. tauto.
Qed.

Lemma insert_by_mtime_count (f : string * Q -> bool) (x : string * Q) (l : list (string * Q)) :
  List.length (filter f (insert_by_mtime x l)) = List.length (filter f (x :: l)).
Proof.
  induction l as [|z l IH]; cbn [insert_by_mtime]; [reflexivity|].
  destruct (Qle_bool (snd z) (snd x)); [|reflexivity].
  cbn [filter]. destruct (f z) eqn:Fz; cbn [List.length]; rewrite IH; cbn [filter];
    rewrite ?Fz; destruct (f x); cbn [List.length]; rewrite ?Fz; cbn [List.length]; lia.
Qed.

Lemma sort_by_mtime_count (f : string * Q -> bool) (l : list (string * Q)) :
  List.length (filter f (sort_by_mtime l)) = List.length (filter f l).
Proof.
  unfold sort_by_mtime.
  assert (H : forall acc,
             List.length (filter f (fold_left (fun acc x => insert_by_mtime x acc) l acc))
             = (List.length (filter f acc) + List.length (filter f l))%nat).
  { induction l as [|x l IH]; intros acc; cbn; [lia|].
    rewrite IH, insert_by_mtime_count. cbn. destruct (f x); cbn; lia. }
  rewrite H. reflexivity.
Qed.

Lemma sort_by_mtime_length (l : list (string * Q)) :
  List.length (sort_by_mtime l) = List.length l.
Proof.
  pose proof (sort_by_mtime_count (fun _ => true) l) as H.
  rewrite !filter_all_true in H by reflexivity. exact H.
Qed.

Lemma filter_none {A} (f : A -> bool) (l : list A) :
  (forall x, In x l -> f x = false) -> filter f l = [].
Proof.
  induction l as [|x l IH]; intros H; cbn; [reflexivity|].
  rewrite (H x (or_introl eq_refl)). apply IH. intros y Hy. apply H. right. exact Hy.
Qed.

Lemma write_file_count (g : string -> bool) (d : dir) (name : string) (t : Q) :
  (List.length (filter (fun e => g (fst e)) (write_file d name t))
   <= S (List.length (filter (fun e => g (fst e)) d)))%nat.
Proof.
  unfold write_file. destruct (existsb _ d).
  - enough (List.length (filter (fun e => g (fst e))
              (map (fun e => if String.eqb (fst e) name then (name, t) else e) d))
            = List.length (filter (fun e => g (fst e)) d)) by lia.
    induction d as [|e d IH]; cbn; [reflexivity|].
    destruct (String.eqb (fst e) name) eqn:E.
    + apply String.eqb_eq in E. cbn. rewrite E. destruct (g name); cbn; rewrite IH; reflexivity.
    + destruct (g (fst e)); cbn; rewrite IH; reflexivity.
  - rewrite filter_app, length_app. cbn. destruct (g name); cbn; lia.
Qed.

Lemma status_file_name_prefix (timestamp : string) :
  starts_with (status_file_name timestamp) "monitor_statuses" = true.
Proof. reflexivity. Qed.

Lemma names_in_status (d : dir) (name : string) :
  names_in (sort_by_mtime (filter is_status_file d)) name = true ->
  starts_with name "monitor_statuses" = true.
Proof.
  intros H. apply existsb_exists in H. destruct H as [x [Hx Hn]].
  apply String.eqb_eq in Hn. subst name.
  apply sort_by_mtime_in, filter_In in Hx. apply Hx.
Qed.

Lemma names_in_self (files : list (string * Q)) (x : string * Q) :
  In x files -> names_in files (fst x) = true.
Proof.
  intros H. apply existsb_exists. exists x. split; [exact H | apply String.eqb_refl].
Qed.

(** [src/shinobi_deep.py] [save_metrics] with [max_log_files <= 0] (the
    field has no validator): the rotation loop deletes every
    [monitor_statuses*] entry, then [files.pop(0)] on the empty list raises
    [IndexError]; the function returns [""] and writes nothing, and every other
    entry of the directory is kept. *)
Theorem deep_save_metrics_nonpositive_max (d : dir) (timestamp : string) (t_write : Q)
  (max_log_files : Z) (remove_ok : string -> bool)
  (Hmax : (max_log_files <= 0)%Z) (Hok : forall n, remove_ok n = true) :
  snd (deep_save_metrics d timestamp t_write max_log_files remove_ok) = "" /\
  forall e, In e (fst (deep_save_metrics d timestamp t_write max_log_files remove_ok))
            <-> In e d /\ is_status_file e = false.
Proof.
  unfold deep_save_metrics. fold is_status_file.
  rewrite rotate_nonpositive by assumption. cbn [fst snd]. split; [reflexivity|].
  intros e. rewrite remove_all_filter, filter_In. split.
  - intros [Hin Hn]. split; [exact Hin|].
    destruct (is_status_file e) eqn:Hs; [|reflexivity].
    rewrite names_in_self in Hn; [discriminate|].
    apply sort_by_mtime_in, filter_In. split; assumption.
  - intros [Hin Hs]. split; [exact Hin|].
    destruct (names_in _ (fst e)) eqn:Hn; [|reflexivity].
    apply names_in_status in Hn. unfold is_status_file in Hs. congruence.
Qed.

Lemma deep_save_metrics_nonpositive_max_witness :
  (0 <= 0)%Z /\ (forall n : string, (fun _ => true) n = true) /\
  snd (deep_save_metrics [("monitor_statuses_1.json", 5%Q); ("notes.txt", 1%Q)]
                         "20250101_000000" 10%Q 0 (fun _ => true)) = "".
Proof.
  split; [lia|]. split; [reflexivity|].
  apply (deep_save_metrics_nonpositive_max
           [("monitor_statuses_1.json", 5%Q); ("notes.txt", 1%Q)] "20250101_000000" 10%Q 0
           (fun _ => true)); [lia | reflexivity].
Defined.

(** [src/shinobi_deep.py] [save_metrics] with [max_log_files >= 1] and no
    failing removal: it returns the name of the file it writes, that file is
    in the directory, at most [max_log_files] [monitor_statuses*] entries
    remain, and no other entry is removed. *)
Theorem deep_save_metrics_rotation (d : dir) (timestamp : string) (t_write : Q)
  (max_log_files : Z) (remove_ok : string -> bool)
  (Hmax : (1 <= max_log_files)%Z) (Hok : forall n, remove_ok n = true) :
  let res := deep_save_metrics d timestamp t_write max_log_files remove_ok in
  snd res = status_file_name timestamp /\
  In (snd res, t_write) (fst res) /\
  (count_status_files (fst res) <= Z.to_nat max_log_files)%nat /\
  (forall e, In e d -> is_status_file e = false -> In e (fst res)).
Proof.
  cbn zeta. unfold deep_save_metrics. fold is_status_file.
  set (F := filter is_status_file d). set (L := sort_by_mtime F).
  rewrite rotate_positive by assumption. cbn [fst snd].
  set (k := Z.to_nat (Z.of_nat (List.length L) - max_log_files + 1)).
  set (S := firstn k L).
  split; [reflexivity|]. split; [apply write_file_new|]. split.
  - unfold count_status_files, is_status_file.
    eapply Nat.le_trans; [apply (write_file_count (fun n => starts_with n "monitor_statuses"))|].
    rewrite remove_all_filter, filter_filter_andb.
    rewrite (filter_ext _ (fun x => starts_with (fst x) "monitor_statuses"
                                     && negb (names_in S (fst x))))
      by (intros x; apply andb_comm).
    rewrite <- (filter_filter_andb (fun x => negb (names_in S (fst x)))).
    fold is_status_file. fold F.
    rewrite <- (sort_by_mtime_count (fun x => negb (names_in S (fst x))) F). fold L.
    rewrite <- (firstn_skipn k L). fold S. rewrite filter_app, length_app.
    rewrite (filter_none _ S) by (intros x Hx; rewrite names_in_self by exact Hx; reflexivity).
    cbn [List.length Nat.add].
    pose proof (filter_length_le (fun x => negb (names_in S (fst x))) (skipn k L)) as Hle.
    rewrite length_skipn in Hle.
    assert (Hk : k = Z.to_nat (Z.of_nat (List.length L) - max_log_files + 1)) by reflexivity.
    lia.
  - intros e Hin Hs. apply write_file_in. right. split.
    + intros Hn. unfold is_status_file in Hs. rewrite Hn, status_file_name_prefix in Hs.
      discriminate.
    + rewrite remove_all_filter. apply filter_In. split; [exact Hin|].
      destruct (names_in S (fst e)) eqn:Hn; [|reflexivity].
      apply existsb_exists in Hn. destruct Hn as [x [Hx Hxe]].
      apply String.eqb_eq in Hxe.
      assert (HxL : In x L) by (rewrite <- (firstn_skipn k L); apply in_or_app; left; exact Hx).
      apply sort_by_mtime_in, filter_In in HxL. destruct HxL as [_ HxS].
      unfold is_status_file in Hs, HxS. rewrite Hxe in Hs. congruence.
Qed.

Lemma deep_save_metrics_rotation_witness :
  (1 <= 2)%Z /\ (forall n : string, (fun _ => true) n = true) /\
  (count_status_files
     (fst (deep_save_metrics [("monitor_statuses_a.json", 5%Q); ("monitor_statuses_b.json", 3%Q);
                              ("monitor_statuses_c.json", 4%Q); ("notes.txt", 1%Q)]
                             "20250101_000000" 10%Q 2 (fun _ => true))) <= 2)%nat.
Proof.
  split; [lia|]. split; [reflexivity|].
  apply (deep_save_metrics_rotation
           [("monitor_statuses_a.json", 5%Q); ("monitor_statuses_b.json", 3%Q);
            ("monitor_statuses_c.json", 4%Q); ("notes.txt", 1%Q)]
           "20250101_000000" 10%Q 2 (fun _ => true)); [lia | reflexivity].
Defined.

(** ** [process_monitors] *)

Lemma scan_seen_ids (ids : list string) (recs : list json) (seen seen' : list string)
  (sts : list status) :
  scan ids seen recs = POk (seen', sts) -> seen' = rev (map st_id sts) ++ seen.
Proof.
  revert seen seen' sts. induction recs as [|r recs IH]; intros seen seen' sts H.
  - cbn in H. injection H as <- <-. reflexivity.
  - destruct r as [| | | | |kvs]; try discriminate H.
    cbn [scan] in H. destruct (dget "mid" kvs) as [[| | | | |]|]; try (eapply IH; exact H).
    destruct (str_in s ids && negb (str_in s seen)); [|eapply IH; exact H].
    destruct (scan ids (s :: seen) recs) as [[seen1 sts1]|e] eqn:E; [|discriminate H].
    cbn in H. injection H as <- <-. apply IH in E. rewrite E. cbn.
    rewrite <- app_assoc. reflexivity.
Qed.

(** [src/Shinobi.py] [process_monitors] on a non-empty list: the reported
    monitors carry distinct tracked identifiers, and every tracked identifier
    is either among the reported monitors or in [missing_monitors], never
    both. *)
Theorem shinobi_monitors_missing_partition (recs : list json) (config : Config) (t : Z)
  (p : processed)
  (Hne : recs <> []) (H : Shinobi.process_monitors (JArr recs) config t = POk p) :
  NoDup (map st_id (p_monitors p)) /\ incl (map st_id (p_monitors p)) (monitor_ids config) /\
  exists missing, p_missing p = Some missing /\
    forall x, In x (monitor_ids config) ->
      (In x (map st_id (p_monitors p)) <-> ~ In x missing).
Proof.
  destruct recs as [|r rs]; [contradiction|].
  unfold Shinobi.process_monitors in H.
  destruct (scan (monitor_ids config) [] (r :: rs)) as [[seen' sts]|e] eqn:E;
    [|discriminate H].
  cbn [pbind fst snd] in H.
  destruct (compute_percentage _ _) as [pct|e]; [|discriminate H].
  cbn [pbind] in H. injection H as <-. cbn [p_monitors p_missing].
  destruct (scan_first_occurrence _ _ _ _ _ E) as [Hnd [Hincl _]].
  split; [exact Hnd|]. split; [exact Hincl|].
  eexists. split; [reflexivity|]. intros x Hx.
  apply scan_seen_ids in E. rewrite app_nil_r in E. subst seen'.
  rewrite filter_In. split.
  - intros Hin [_ Hn]. apply negb_true_iff, str_in_false in Hn. apply Hn.
    apply in_rev in Hin. exact Hin.
  - intros Hn. destruct (in_dec string_dec x (map st_id sts)) as [Hs|Hs]; [exact Hs|].
    exfalso. apply Hn. split; [exact Hx|].
    apply negb_true_iff, str_in_false. intros Hr. apply Hs, in_rev, Hr.
Qed.

Definition partition_sample : list json :=
  [rec_of "A" "record" "Recording"; rec_of "C" "stop" "Idle"; rec_of "A" "stop" "Idle"].

Lemma shinobi_monitors_missing_partition_witness :
  let p := processed_or_empty (Shinobi.process_monitors (JArr partition_sample) (cfg_of ["A"; "B"]) 0) in
  NoDup (map st_id (p_monitors p)) /\ incl (map st_id (p_monitors p)) ["A"; "B"] /\
  exists missing, p_missing p = Some missing /\
    forall x, In x ["A"; "B"] -> (In x (map st_id (p_monitors p)) <-> ~ In x missing).
Proof.
  apply (shinobi_monitors_missing_partition partition_sample (cfg_of ["A"; "B"]) 0
           (processed_or_empty (Shinobi.process_monitors (JArr partition_sample)
                                  (cfg_of ["A"; "B"]) 0)));
    [discriminate | vm_compute; reflexivity].
Defined.

Lemma scan_non_dict (ids seen : list string) (recs : list json) :
  (exists r, In r recs /\ forall kvs, r <> JObj kvs) -> scan ids seen recs = Raise AttributeError.
Proof.
  revert seen. induction recs as [|r0 recs IH]; intros seen [r [Hin Hr]]; [destruct Hin|].
  destruct Hin as [<-|Hin].
  - destruct r0; try reflexivity. exfalso. exact (Hr kvs eq_refl).
  - assert (H : forall seen', scan ids seen' recs = Raise AttributeError)
      by (intros seen'; apply IH; exists r; split; assumption).
    destruct r0 as [| | | | |kvs]; try reflexivity.
    cbn [scan]. destruct (dget "mid" kvs) as [[| | | | |]|]; try apply H.
    destruct (str_in s ids && negb (str_in s seen)); [rewrite H; reflexivity | apply H].
Qed.

Lemma dscan_non_dict (ids missing : list string) (rc : Z) (recs : list json) :
  (exists r, In r recs /\ forall kvs, r <> JObj kvs) ->
  ShinobiDeep.dscan ids missing rc recs = Raise TypeError.
Proof.
  revert missing rc. induction recs as [|r0 recs IH]; intros missing rc [r [Hin Hr]];
    [destruct Hin|].
  destruct Hin as [<-|Hin].
  - destruct r0; try reflexivity. exfalso. exact (Hr kvs eq_refl).
  - assert (H : forall missing' rc', ShinobiDeep.dscan ids missing' rc' recs = Raise TypeError)
      by (intros missing' rc'; apply IH; exists r; split; assumption).
    destruct r0 as [| | | | |kvs]; try reflexivity.
    cbn [ShinobiDeep.dscan]. destruct (dget "mid" kvs) as [[| | | | |]|]; try apply H.
    destruct (negb (str_in s ids)); [apply H | rewrite H; reflexivity].
Qed.

(** Both [process_monitors]: one response entry that is not a JSON object,
    anywhere in the list, makes the whole call raise ([AttributeError] from
    [monitor.get] in [src/Shinobi.py], [TypeError] from [monitor["mid"]] in
    [src/shinobi_deep.py]), whatever the other entries are. *)
Theorem non_dict_entry_raises (recs : list json) (config : Config)
  (dconfig : ShinobiDeep.DeepConfig) (t : Z)
  (Hbad : exists r, In r recs /\ forall kvs, r <> JObj kvs) :
  Shinobi.process_monitors (JArr recs) config t = Raise AttributeError /\
  ShinobiDeep.process_monitors (JArr recs) dconfig t = Raise TypeError.
Proof.
  split.
  - destruct recs as [|r rs]; [destruct Hbad as [r [[] _]]|].
    unfold Shinobi.process_monitors. rewrite scan_non_dict by exact Hbad. reflexivity.
  - unfold ShinobiDeep.process_monitors. cbv zeta.
    rewrite dscan_non_dict by exact Hbad. reflexivity.
Qed.

Lemma non_dict_entry_raises_witness :
  Shinobi.process_monitors (JArr [rec_of "A" "record" "Recording"; JStr "A"]) (cfg_of ["A"]) 0
    = Raise AttributeError /\
  ShinobiDeep.process_monitors (JArr [rec_of "A" "record" "Recording"; JStr "A"])
    (deep_cfg_of ["A"] 75) 0 = Raise TypeError.
Proof.
  apply non_dict_entry_raises. exists (JStr "A"). split; [right; left; reflexivity|].
  intros kvs Heq. discriminate Heq.
Defined.

Lemma scan_skip (ids seen : list string) (kvs : list (string * json)) (recs : list json) :
  (forall mid, dget "mid" kvs = Some (JStr mid) -> str_in mid ids = false) ->
  scan ids seen (JObj kvs :: recs) = scan ids seen recs.
Proof.
  intros H. cbn [scan]. destruct (dget "mid" kvs) as [[| | | | |]|] eqn:E; try reflexivity.
  rewrite (H s eq_refl). reflexivity.
Qed.

Lemma dscan_skip (ids missing : list string) (rc : Z) (kvs : list (string * json))
  (recs : list json) :
  (forall mid, dget "mid" kvs = Some (JStr mid) -> str_in mid ids = false) ->
  ShinobiDeep.dscan ids missing rc (JObj kvs :: recs) = ShinobiDeep.dscan ids missing rc recs.
Proof.
  intros H. cbn [ShinobiDeep.dscan]. destruct (dget "mid" kvs) as [[| | | | |]|] eqn:E;
    try reflexivity.
  rewrite (H s eq_refl). reflexivity.
Qed.

(** [src/Shinobi.py] [process_monitors]: an object entry without a [mid]
    string naming a tracked monitor changes nothing, as long as some other
    entry follows (an empty list is the "no data" case). *)
Theorem shinobi_untracked_entry_ignored (kvs : list (string * json)) (recs : list json)
  (config : Config) (t : Z)
  (Hne : recs <> [])
  (Hmid : forall mid, dget "mid" kvs = Some (JStr mid) -> ~ In mid (monitor_ids config)) :
  Shinobi.process_monitors (JArr (JObj kvs :: recs)) config t =
  Shinobi.process_monitors (JArr recs) config t.
Proof.
  destruct recs as [|r rs]; [contradiction|].
  unfold Shinobi.process_monitors. rewrite scan_skip; [reflexivity|].
  intros mid Hm. apply str_in_false. exact (Hmid mid Hm).
Qed.

Lemma shinobi_untracked_entry_ignored_witness :
  Shinobi.process_monitors (JArr [rec_of "Z" "record" "Recording"; rec_of "A" "stop" "Idle"])
    (cfg_of ["A"]) 0 =
  Shinobi.process_monitors (JArr [rec_of "A" "stop" "Idle"]) (cfg_of ["A"]) 0.
Proof.
  apply (shinobi_untracked_entry_ignored
           [("mid"%string, JStr "Z"); ("name"%string, JStr "Z"); ("mode"%string, JStr "record");
            ("status"%string, JStr "Recording")] [rec_of "A" "stop" "Idle"] (cfg_of ["A"]) 0).
  - discriminate.
  - intros mid Hm. vm_compute in Hm. injection Hm as <-. cbn. intuition discriminate.
Defined.

(** [src/shinobi_deep.py] [process_monitors]: an object entry without a
    [mid], or whose [mid] is not a tracked identifier, changes nothing; this
    includes the single-entry list, which becomes the empty one. *)
Theorem deep_untracked_entry_ignored (kvs : list (string * json)) (recs : list json)
  (config : ShinobiDeep.DeepConfig) (t : Z)
  (Hmid : forall mid, dget "mid" kvs = Some (JStr mid) ->
                      ~ In mid (ShinobiDeep.deep_monitor_ids config)) :
  ShinobiDeep.process_monitors (JArr (JObj kvs :: recs)) config t =
  ShinobiDeep.process_monitors (JArr recs) config t.
Proof.
  unfold ShinobiDeep.process_monitors. cbv zeta. rewrite dscan_skip; [reflexivity|].
  intros mid Hm. apply str_in_false. exact (Hmid mid Hm).
Qed.

Lemma deep_untracked_entry_ignored_witness :
  ShinobiDeep.process_monitors (JArr [JObj [("name"%string, JStr "cam")]]) (deep_cfg_of ["A"] 75) 0 =
  ShinobiDeep.process_monitors (JArr []) (deep_cfg_of ["A"] 75) 0.
Proof.
  apply deep_untracked_entry_ignored. intros mid Hm. discriminate Hm.
Defined.

(** ** [initialize_excel_sheet] and the workbook *)

Lemma sanitize_chars (s : string) :
  list_ascii_of_string (sanitize s) = map sanitize_char (list_ascii_of_string s).
Proof. unfold sanitize. apply list_ascii_of_string_of_list_ascii. Qed.

Lemma sanitize_char_clean (c : Ascii.ascii) :
  existsb (Ascii.eqb (sanitize_char c)) ["/"; "\"; ":"]%char = false.
Proof. destruct c as [[] [] [] [] [] [] [] []]; reflexivity. Qed.

Lemma sanitize_char_invalid (c : Ascii.ascii) :
  invalid_title_char (sanitize_char c) = existsb (Ascii.eqb c) ["*"; "?"; "["; "]"]%char.
Proof. destruct c as [[] [] [] [] [] [] [] []]; reflexivity. Qed.

Lemma sanitize_empty (name : string) :
  String.eqb (sanitize name) "" = String.eqb name "".
Proof. destruct name; reflexivity. Qed.

(** [initialize_excel_sheet] raises exactly when the sanitised name is not
    yet a sheet and either the name is empty ([KeyError]), or it contains one
    of [* ? [ ]], the title characters openpyxl refuses that the
    sanitisation leaves in place ([ValueError]), or an existing sheet has
    the same name up to case ([KeyError] after the renaming). *)
Theorem initialize_excel_sheet_raises_iff (wb : workbook) (name : string) :
  initialize_excel_sheet wb name = None <->
  str_in (sanitize name) (map fst wb) = false /\
  (name = "" \/
   existsb (fun c => existsb (Ascii.eqb c) ["*"; "?"; "["; "]"]%char)
           (list_ascii_of_string name) = true \/
   existsb (fun n => String.eqb (lower n) (lower (sanitize name))) (map fst wb) = true).
Proof.
  unfold initialize_excel_sheet. destruct (str_in (sanitize name) (map fst wb)).
  - split; [discriminate | intros [H _]; discriminate].
  - rewrite sanitize_chars, sanitize_empty.
    assert (E : existsb invalid_title_char (map sanitize_char (list_ascii_of_string name))
                = existsb (fun c => existsb (Ascii.eqb c) ["*"; "?"; "["; "]"]%char)
                          (list_ascii_of_string name)).
    { induction (list_ascii_of_string name) as [|c l IH]; [reflexivity|].
      cbn [map existsb]. rewrite IH, sanitize_char_invalid. reflexivity. }
    rewrite E.
    destruct (String.eqb name "") eqn:H0;
      [apply String.eqb_eq in H0 | apply String.eqb_neq in H0];
      destruct (existsb (fun c => existsb (Ascii.eqb c) _) _);
      destruct (existsb (fun n => String.eqb (lower n) _) _);
      split; intros H; try discriminate H; intuition congruence.
Qed.

Lemma initialize_excel_sheet_raises_iff_witness :
  initialize_excel_sheet [("abc", [HeaderRow])] "ABC" = None.
Proof.
  apply initialize_excel_sheet_raises_iff. split; [reflexivity | right; right; reflexivity].
Defined.

(** A successful [initialize_excel_sheet] returns a sheet name without [/],
    [\] or [:]; it either leaves the workbook as it is or appends one new
    sheet holding only the header row; and calling it again with the same
    name on the result changes nothing. *)
Theorem initialize_excel_sheet_idempotent (wb wb' : workbook) (name n : string)
  (H : initialize_excel_sheet wb name = Some (wb', n)) :
  n = sanitize name /\
  (forall c, In c (list_ascii_of_string n) -> existsb (Ascii.eqb c) ["/"; "\"; ":"]%char = false) /\
  (wb' = wb \/ (str_in n (map fst wb) = false /\ wb' = wb ++ [(n, [HeaderRow])])) /\
  initialize_excel_sheet wb' name = Some (wb', n).
Proof.
  assert (Hclean : forall c, In c (list_ascii_of_string (sanitize name)) ->
                             existsb (Ascii.eqb c) ["/"; "\"; ":"]%char = false).
  { intros c Hc. rewrite sanitize_chars in Hc. apply in_map_iff in Hc.
    destruct Hc as [c0 [<- _]]. apply sanitize_char_clean. }
  unfold initialize_excel_sheet in *. destruct (str_in (sanitize name) (map fst wb)) eqn:E.
  - injection H as <- <-. split; [reflexivity|]. split; [exact Hclean|].
    split; [left; reflexivity|]. rewrite E. reflexivity.
  - destruct (String.eqb (sanitize name) ""); [discriminate H|].
    destruct (existsb invalid_title_char _); [discriminate H|].
    destruct (existsb (fun n => String.eqb (lower n) _) _); [discriminate H|].
    injection H as <- <-. split; [reflexivity|]. split; [exact Hclean|].
    split; [right; split; [exact E | reflexivity]|].
    replace (str_in (sanitize name) (map fst (wb ++ [(sanitize name, [HeaderRow])]))) with true;
      [reflexivity|].
    symmetry. apply str_in_iff. rewrite map_app. apply in_or_app. right. left. reflexivity.
Qed.

Lemma initialize_excel_sheet_idempotent_witness :
  let r := initialize_excel_sheet [] "MKTL/15" in
  r = Some ([("MKTL_15", [HeaderRow])], "MKTL_15") /\
  "MKTL_15" = sanitize "MKTL/15" /\
  (forall c, In c (list_ascii_of_string "MKTL_15") ->
             existsb (Ascii.eqb c) ["/"; "\"; ":"]%char = false) /\
  ([("MKTL_15", [HeaderRow])] = [] \/
   (str_in "MKTL_15" (map fst ([] : workbook)) = false /\
    [("MKTL_15", [HeaderRow])] = [] ++ [("MKTL_15", [HeaderRow])])) /\
  initialize_excel_sheet [("MKTL_15", [HeaderRow])] "MKTL/15"
    = Some ([("MKTL_15", [HeaderRow])], "MKTL_15").
Proof.
  split; [vm_compute; reflexivity|].
  apply (initialize_excel_sheet_idempotent [] [("MKTL_15", [HeaderRow])] "MKTL/15" "MKTL_15").
  vm_compute. reflexivity.
Defined.

Definition is_data_row (r : sheet_row) : bool :=
  match r with DataRow _ _ => true | HeaderRow => false end.

(** Data rows over all sheets. *)
Definition data_rows (wb : workbook) : nat :=
  List.length (filter is_data_row (flat_map snd wb)).

(** Every sheet starts with the header row. *)
Definition headed (wb : workbook) : Prop :=
  Forall (fun s => exists rest, snd s = HeaderRow :: rest) wb.

Lemma append_to_sheet_absent (wb : workbook) (name : string) (r : sheet_row) :
  ~ In name (map fst wb) -> append_to_sheet wb name r = wb.
Proof.
  unfold append_to_sheet. induction wb as [|s wb IH]; intros Hn; [reflexivity|]. cbn [map].
  destruct (String.eqb (fst s) name) eqn:E.
  - exfalso. apply Hn. left. apply String.eqb_eq. exact E.
  - rewrite IH; [reflexivity|]. intros H. apply Hn. right. exact H.
Qed.

Lemma append_to_sheet_names (wb : workbook) (name : string) (r : sheet_row) :
  map fst (append_to_sheet wb name r) = map fst wb.
Proof.
  unfold append_to_sheet. induction wb as [|s wb IH]; [reflexivity|]. cbn [map].
  destruct (String.eqb (fst s) name); cbn [fst map]; rewrite IH; reflexivity.
Qed.

Lemma append_to_sheet_headed (wb : workbook) (name : string) (r : sheet_row) :
  headed wb -> headed (append_to_sheet wb name r).
Proof.
  unfold headed, append_to_sheet. intros H. apply Forall_map.
  eapply Forall_impl; [|exact H]. intros s [rest Hs].
  destruct (String.eqb (fst s) name); cbn; [|exists rest; exact Hs].
  rewrite Hs. exists (rest ++ [r]). reflexivity.
Qed.

Lemma append_to_sheet_rows (wb : workbook) (name : string) (ip : string) (r : row) :
  NoDup (map fst wb) -> In name (map fst wb) ->
  data_rows (append_to_sheet wb name (DataRow ip r)) = S (data_rows wb).
Proof.
  unfold data_rows. induction wb as [|s wb IH]; intros Hnd Hin; [destruct Hin|].
  inversion Hnd as [|? ? Hn Hnd']; subst. cbn [append_to_sheet map flat_map] in *.
  destruct (String.eqb (fst s) name) eqn:E.
  - apply String.eqb_eq in E. rewrite E in Hn.
    fold (append_to_sheet wb name (DataRow ip r)). rewrite append_to_sheet_absent by exact Hn.
    cbn [snd]. rewrite <- app_assoc, !filter_app, !length_app. cbn. lia.
  - destruct Hin as [Hs|Hin]; [apply String.eqb_neq in E; contradiction|].
    fold (append_to_sheet wb name (DataRow ip r)).
    rewrite !filter_app, !length_app. rewrite IH by assumption. lia.
Qed.

Lemma initialize_excel_sheet_shape (wb wb' : workbook) (name n : string) :
  initialize_excel_sheet wb name = Some (wb', n) ->
  NoDup (map fst wb) -> headed wb ->
  NoDup (map fst wb') /\ headed wb' /\ In n (map fst wb') /\ data_rows wb' = data_rows wb.
Proof.
  intros H Hnd Hh. unfold initialize_excel_sheet in H.
  destruct (str_in (sanitize name) (map fst wb)) eqn:E.
  - injection H as <- <-. apply str_in_iff in E. auto.
  - destruct (String.eqb (sanitize name) ""); [discriminate H|].
    destruct (existsb invalid_title_char _); [discriminate H|].
    destruct (existsb (fun n => String.eqb (lower n) _) _); [discriminate H|].
    injection H as <- <-. apply str_in_false in E. rewrite map_app. cbn [map fst]. split; [|split; [|split]].
    + apply NoDup_app; [exact Hnd | constructor; [intros []|constructor] |].
      intros x Hx [<-|[]]. contradiction.
    + unfold headed. apply Forall_app. split; [exact Hh|].
      constructor; [exists []; reflexivity | constructor].
    + apply in_or_app. right. left. reflexivity.
    + unfold data_rows. rewrite flat_map_app. cbn. rewrite filter_app, length_app.
      cbn. lia.
Qed.

(** [log_server_status] over the hosts of one run, on a workbook whose sheet
    names are distinct and whose sheets start with the header row (a new
    workbook, once its default sheet is removed, is one): when it completes,
    this still holds, and exactly one data row per host has been added. *)
Theorem log_servers_rows (trk : string -> tracker) (wb : workbook) (t : Z)
  (probes : list (server * host_status)) (trk' : string -> tracker) (wb' : workbook)
  (alerts : list string)
  (Hnd : NoDup (map fst wb)) (Hh : headed wb)
  (H : log_servers trk wb t probes = Some (trk', wb', alerts)) :
  NoDup (map fst wb') /\ headed wb' /\ data_rows wb' = (data_rows wb + List.length probes)%nat.
Proof.
  revert trk wb Hnd Hh trk' wb' alerts H.
  induction probes as [|[srv st] rest IH]; intros trk wb Hnd Hh trk' wb' alerts H.
  - cbn in H. injection H as <- <- <-. split; [exact Hnd|]. split; [exact Hh | cbn [List.length]; lia].
  - cbn [log_servers] in H.
    destruct (log_host (trk (srv_key srv)) st t) as [[tr1 r] alert].
    destruct (initialize_excel_sheet wb (srv_name srv)) as [[wb1 n]|] eqn:Ei; [|discriminate H].
    destruct (initialize_excel_sheet_shape _ _ _ _ Ei Hnd Hh) as [Hnd1 [Hh1 [Hin1 Hr1]]].
    match type of H with
    | match log_servers ?k ?w ?tt rest with _ => _ end = _ =>
        destruct (log_servers k w tt rest) as [[[trk2 wb2] al2]|] eqn:El; [|discriminate H]
    end.
    injection H as <- <- _.
    apply IH in El.
    + destruct El as [Hnd2 [Hh2 Hr2]]. split; [exact Hnd2|]. split; [exact Hh2|].
      rewrite Hr2, append_to_sheet_rows, Hr1 by assumption. cbn [List.length]. lia.
    + rewrite append_to_sheet_names. exact Hnd1.
    + apply append_to_sheet_headed. exact Hh1.
Qed.

Definition sample_servers : list (server * host_status) :=
  [({| srv_key := "KETL"; srv_name := "KETL"; srv_ip := "172.24.24.146" |}, Up);
   ({| srv_key := "MKTL-15"; srv_name := "MKTL-15"; srv_ip := "172.24.15.161" |}, Down)].

Definition sample_log_run : option ((string -> tracker) * workbook * list string) :=
  log_servers (fun _ => init_tracker) [] 0 sample_servers.

Definition sample_log_workbook : workbook :=
  Eval vm_compute in
    match sample_log_run with Some (_, wb, _) => wb | None => [] end.

Lemma log_servers_rows_witness :
  NoDup (map fst sample_log_workbook) /\ headed sample_log_workbook /\
  data_rows sample_log_workbook = (data_rows [] + List.length sample_servers)%nat.
Proof.
  destruct sample_log_run as [[[trk' wb'] al]|] eqn:E; [|vm_compute in E; discriminate E].
  assert (Hw : wb' = sample_log_workbook) by (vm_compute in E; injection E as _ <- _; reflexivity).
  rewrite <- Hw.
  apply (log_servers_rows (fun _ => init_tracker) [] 0 sample_servers trk' wb' al).
  - constructor.
  - constructor.
  - exact E.
Defined.

(** ** Alerts of [log_server_status] for one host *)

(** The cycles that start an outage: [Down] after a status other than [Down]. *)
Fixpoint outage_starts (prev : option host_status) (obs : list (host_status * Z)) : list bool :=
  match obs with
  | [] => []
  | (st, _) :: rest =>
      (host_status_eqb st Down && negb (match prev with Some Down => true | _ => false end))
        :: outage_starts (Some st) rest
  end.

Lemma log_host_alert_invariant (tr : tracker) (st : host_status) (t : Z) :
  notification_sent tr = match last_status tr with Some Down => true | _ => false end ->
  let '(tr', _, a) := log_host tr st t in
  a = host_status_eqb st Down
        && negb (match last_status tr with Some Down => true | _ => false end) /\
  last_status tr' = Some st /\
  notification_sent tr' = match last_status tr' with Some Down => true | _ => false end.
Proof.
  intros Hinv. destruct tr as [ls ldt lut ns].
  destruct st, ls as [[|]|]; cbn in Hinv; rewrite Hinv; unfold log_host; cbn;
    try destruct ldt; try destruct lut; repeat split.
Qed.

Lemma log_alerts_outages (tr : tracker) (obs : list (host_status * Z)) :
  notification_sent tr = match last_status tr with Some Down => true | _ => false end ->
  log_alerts tr obs = outage_starts (last_status tr) obs.
Proof.
  revert tr. induction obs as [|[st t] rest IH]; intros tr Hinv; [reflexivity|].
  cbn [log_alerts outage_starts].
  pose proof (log_host_alert_invariant tr st t Hinv) as Hstep.
  destruct (log_host tr st t) as [[tr' r] a]. destruct Hstep as [Ha [Hl Hinv']].
  rewrite Ha, (IH tr' Hinv'), Hl. reflexivity.
Qed.

(** [src/server_check.py], one host from the start of the script: the
    WhatsApp alert is sent exactly on the cycles that begin an outage (a
    [Down] probe whose previous probe was not [Down]), so one alert per
    outage, however long it lasts. *)
Theorem one_alert_per_outage (obs : list (host_status * Z)) :
  log_alerts init_tracker obs = outage_starts None obs.
Proof. apply log_alerts_outages. reflexivity. Qed.

(** ** The driver loop of [src/Shinobi.py] *)

Ltac split_scrutinee :=
  match goal with
  | |- context [if ?b then _ else _] => destruct b eqn:?
  | |- context [match ?x with pair _ _ => _ end] => destruct x eqn:?
  | |- context [match ?x with Some _ => _ | None => _ end] => destruct x eqn:?
  | |- context [match ?x with POk _ => _ | Raise _ => _ end] => destruct x eqn:?
  end.

Ltac zbool_to_prop :=
  repeat match goal with
  | H : (_ <=? _)%Z = true |- _ => apply Z.leb_le in H
  | H : (_ <=? _)%Z = false |- _ => apply Z.leb_gt in H
  end.

Lemma run_app (config : Config) (d : driver) (l1 l2 : list cycle_env) :
  run config d (l1 ++ l2) =
  (fst (run config (fst (run config d l1)) l2),
   snd (run config d l1) ++ snd (run config (fst (run config d l1)) l2)).
Proof.
  revert d. induction l1 as [|e l1 IH]; intros d.
  - destruct d as [s|c]; cbn; [destruct (run config (Running s) l2); reflexivity|].
    destruct l2; reflexivity.
  - destruct d as [s|c]; [|destruct l2; reflexivity]. cbn [app run].
    destruct (cycle config s e) as [d1 effs1]. rewrite IH.
    destruct (run config d1 l1) as [d2 effs2]. cbn [fst snd].
    destruct (run config d2 l2) as [d3 effs3]. cbn [fst snd]. rewrite app_assoc. reflexivity.
Qed.

Lemma cycle_shape (config : Config) (s : loop_state) (e : cycle_env)
  (Hmax : (1 <= max_consecutive_failures config)%Z)
  (Hs : (0 <= consecutive_failures s < max_consecutive_failures config)%Z) :
  let r := cycle config s e in
  (exists s', fst r = Running s' /\
              (0 <= consecutive_failures s' < max_consecutive_failures config)%Z /\
              forall c, ~ In (Exit c) (snd r)) \/
  (fst r = Stopped 1 /\ snd r = removelast (snd r) ++ [Exit 1] /\
   forall c, ~ In (Exit c) (removelast (snd r))).
Proof.
  cbn zeta. unfold cycle, give_up_or_sleep, trigger_apps_script.
  repeat split_scrutinee; zbool_to_prop; cbn in *;
    first [ left; eexists; split; [reflexivity|]; split; [cbn; lia|];
            intros c; cbn; intuition discriminate
          | right; split; [reflexivity|]; split; [reflexivity|];
            intros c; cbn; intuition discriminate ].
Qed.

(** [main] with [max_consecutive_failures >= 1], from a state whose counter
    is below the maximum (the initial state is one): while the loop runs its
    counter stays in [[0, max)], and when it stops it does so with
    [sys.exit(1)], the last effect of the run and its only exit. *)
Theorem run_counter_bounded_exit_1 (config : Config) (s : loop_state) (envs : list cycle_env)
  (Hmax : (1 <= max_consecutive_failures config)%Z)
  (Hs : (0 <= consecutive_failures s < max_consecutive_failures config)%Z) :
  let r := run config (Running s) envs in
  (exists s', fst r = Running s' /\
              (0 <= consecutive_failures s' < max_consecutive_failures config)%Z /\
              forall c, ~ In (Exit c) (snd r)) \/
  (fst r = Stopped 1 /\ snd r = removelast (snd r) ++ [Exit 1] /\
   forall c, ~ In (Exit c) (removelast (snd r))).
Proof.
  cbn zeta. revert s Hs. induction envs as [|e rest IH]; intros s Hs.
  - left. exists s. split; [reflexivity|]. split; [exact Hs|]. intros c [].
  - cbn [run]. pose proof (cycle_shape config s e Hmax Hs) as Hc. cbn zeta in Hc.
    destruct (cycle config s e) as [d1 effs1]. cbn [fst snd] in Hc.
    destruct Hc as [[s1 [-> [Hs1 Hno1]]]|[-> [Hl1 Hno1]]].
    + specialize (IH s1 Hs1).
      destruct (run config (Running s1) rest) as [d2 effs2]. cbn [fst snd] in *.
      destruct IH as [[s2 [-> [Hs2 Hno2]]]|[-> [Hl2 Hno2]]].
      * left. exists s2. split; [reflexivity|]. split; [exact Hs2|].
        intros c Hin. apply in_app_or in Hin. destruct Hin as [H|H]; [exact (Hno1 c H) | exact (Hno2 c H)].
      * right. split; [reflexivity|].
        assert (Hne : effs2 <> []) by (intros ->; discriminate Hl2).
        rewrite removelast_app by exact Hne. split.
        -- rewrite <- app_assoc, <- Hl2. reflexivity.
        -- intros c Hin. apply in_app_or in Hin.
           destruct Hin as [H|H]; [exact (Hno1 c H) | exact (Hno2 c H)].
    + right. destruct rest; cbn [run fst snd]; rewrite app_nil_r;
        (split; [reflexivity | split; assumption]).
Qed.

Lemma run_counter_bounded_exit_1_witness :
  let r := run (cfg_of ["A"]) (Running init_state)
               [health_failure 100; fetch_failure 160; health_failure 220] in
  (exists s', fst r = Running s' /\
              (0 <= consecutive_failures s' < max_consecutive_failures (cfg_of ["A"]))%Z /\
              forall c, ~ In (Exit c) (snd r)) \/
  (fst r = Stopped 1 /\ snd r = removelast (snd r) ++ [Exit 1] /\
   forall c, ~ In (Exit c) (removelast (snd r))).
Proof.
  apply run_counter_bounded_exit_1; cbn; lia.
Defined.

Definition is_exit_notice (x : effect) : bool :=
  match x with Post _ ExitNotice => true | _ => false end.

Definition is_down_alert (x : effect) : bool :=
  match x with Post _ DownAlert => true | _ => false end.

Lemma cycle_fail_continue (config : Config) (s : loop_state) (e : cycle_env)
  (Hh : env_health e <> "OK")
  (Hlt : (consecutive_failures s + 1 < max_consecutive_failures config)%Z) :
  exists s1, fst (cycle config s e) = Running s1 /\
             consecutive_failures s1 = (consecutive_failures s + 1)%Z /\
             existsb is_exit_notice (snd (cycle config s e)) = false.
Proof.
  apply String.eqb_neq in Hh. unfold cycle, give_up_or_sleep, trigger_apps_script.
  rewrite Hh. cbn [negb].
  repeat split_scrutinee; zbool_to_prop; cbn in *; try lia;
    (eexists; split; [reflexivity | split; reflexivity]).
Qed.

Lemma cycle_fail_stop (config : Config) (s : loop_state) (e : cycle_env)
  (Hh : env_health e <> "OK")
  (Hge : (max_consecutive_failures config <= consecutive_failures s + 1)%Z)
  (Hurl : apps_script_url config <> "") :
  exists pre, cycle config s e = (Stopped 1, pre ++ [Post (env_time e) ExitNotice; Exit 1]) /\
              existsb is_exit_notice pre = false.
Proof.
  apply String.eqb_neq in Hh. apply String.eqb_neq in Hurl.
  unfold cycle, give_up_or_sleep, trigger_apps_script.
  rewrite Hh, Hurl. cbn [negb].
  repeat split_scrutinee; zbool_to_prop; cbn in *; try lia; try congruence;
    first [ exists []; split; reflexivity
          | exists [Post (env_time e) DownAlert]; split; reflexivity ].
Qed.

Lemma run_health_failures (config : Config) (s : loop_state) (envs : list cycle_env)
  (Hh : forall e, In e envs -> env_health e <> "OK")
  (Hlt : (consecutive_failures s + Z.of_nat (List.length envs) < max_consecutive_failures config)%Z) :
  exists s', fst (run config (Running s) envs) = Running s' /\
             consecutive_failures s' = (consecutive_failures s + Z.of_nat (List.length envs))%Z /\
             existsb is_exit_notice (snd (run config (Running s) envs)) = false.
Proof.
  revert s Hlt. induction envs as [|e rest IH]; intros s Hlt.
  - exists s. split; [reflexivity|]. split; [cbn; lia | reflexivity].
  - cbn [List.length] in Hlt.
    destruct (cycle_fail_continue config s e (Hh e (or_introl eq_refl)) ltac:(lia))
      as [s1 [Hd1 [Hc1 Hx1]]].
    destruct (IH (fun e' H => Hh e' (or_intror H)) s1 ltac:(lia)) as [s2 [Hd2 [Hc2 Hx2]]].
    cbn [run]. destruct (cycle config s e) as [d1 effs1]. cbn [fst snd] in *. subst d1.
    destruct (run config (Running s1) rest) as [d2 effs2]. cbn [fst snd] in *.
    exists s2. split; [exact Hd2|]. split; [cbn [List.length]; lia|].
    rewrite existsb_app, Hx1, Hx2. reflexivity.
Qed.

(** [main] when every health check fails, the Apps Script URL is set and the
    counter starts at [c >= 0]: the first [max - c - 1] failures keep the loop
    running; the next one ends it with [sys.exit(1)], right after posting
    the exit notice, which is posted once in the whole run. *)
Theorem health_failures_exit (config : Config) (s : loop_state) (envs : list cycle_env)
  (e_last : cycle_env)
  (Hh : forall e, In e (envs ++ [e_last]) -> env_health e <> "OK")
  (Hcf : (0 <= consecutive_failures s)%Z)
  (Hn : (consecutive_failures s + Z.of_nat (List.length envs) + 1
         = max_consecutive_failures config)%Z)
  (Hurl : apps_script_url config <> "") :
  (exists s', fst (run config (Running s) envs) = Running s') /\
  fst (run config (Running s) (envs ++ [e_last])) = Stopped 1 /\
  exists pre, snd (run config (Running s) (envs ++ [e_last]))
              = pre ++ [Post (env_time e_last) ExitNotice; Exit 1] /\
              existsb is_exit_notice pre = false.
Proof.
  destruct (run_health_failures config s envs
              (fun e H => Hh e (in_or_app _ _ _ (or_introl H))) ltac:(lia))
    as [s' [Hd [Hc Hx]]].
  destruct (cycle_fail_stop config s' e_last (Hh e_last ltac:(apply in_or_app; right; left; reflexivity))
              ltac:(lia) Hurl) as [pre [Hcyc Hpre]].
  split; [exists s'; exact Hd|].
  rewrite run_app, Hd. cbn [run]. rewrite Hcyc. cbn [run fst snd].
  split; [reflexivity|].
  exists (snd (run config (Running s) envs) ++ pre). split.
  - rewrite app_nil_r, app_assoc. reflexivity.
  - rewrite existsb_app, Hx, Hpre. reflexivity.
Qed.

Lemma health_failures_exit_witness :
  (exists s', fst (run (cfg_of ["A"]) (Running init_state)
                       [health_failure 100; health_failure 160]) = Running s') /\
  fst (run (cfg_of ["A"]) (Running init_state)
           ([health_failure 100; health_failure 160] ++ [health_failure 220])) = Stopped 1 /\
  exists pre, snd (run (cfg_of ["A"]) (Running init_state)
                       ([health_failure 100; health_failure 160] ++ [health_failure 220]))
              = pre ++ [Post (env_time (health_failure 220)) ExitNotice; Exit 1] /\
              existsb is_exit_notice pre = false.
Proof.
  apply health_failures_exit.
  - intros e He. repeat (destruct He as [<-|He]; [discriminate|]). destruct He.
  - cbn. lia.
  - reflexivity.
  - discriminate.
Defined.



Lemma cycle_alert_undelivered (config : Config) (s : loop_state) (e : cycle_env)
  (Hh : env_health e <> "OK") (Hpost : env_post_ok e = false)
  (Hurl : apps_script_url config <> "")
  (Hcool : (notification_cooldown config <= env_time e - last_notification_time s)%Z)
  (Hlt : (consecutive_failures s + 1 < max_consecutive_failures config)%Z) :
  cycle config s e =
  (Running {| consecutive_failures := consecutive_failures s + 1;
              last_notification_time := last_notification_time s;
              server_was_up := false |},
   [Post (env_time e) DownAlert; Sleep]).
Proof.
  apply String.eqb_neq in Hh. apply String.eqb_neq in Hurl. apply Z.leb_le in Hcool.
  unfold cycle, give_up_or_sleep, trigger_apps_script.
  rewrite Hh, Hurl, Hcool, Hpost, orb_true_r. cbn [negb fst consecutive_failures].
  replace (max_consecutive_failures config <=? consecutive_failures s + 1)%Z with false
    by (symmetry; apply Z.leb_gt; lia).
  reflexivity.
Qed.

(** [main] when the health check keeps failing and every alert POST fails
    (with the URL set, before the maximum is reached, each cycle at least
    [notification_cooldown] after the last delivered alert): since only a
    delivered alert updates [last_notification_time], a down alert is
    attempted in every cycle, not once per cooldown. *)
Theorem undelivered_alerts_retried (config : Config) (s : loop_state) (envs : list cycle_env)
  (Hurl : apps_script_url config <> "")
  (Henv : forall e, In e envs ->
            env_health e <> "OK" /\ env_post_ok e = false /\
            (notification_cooldown config <= env_time e - last_notification_time s)%Z)
  (Hcf : (0 <= consecutive_failures s)%Z)
  (Hlt : (consecutive_failures s + Z.of_nat (List.length envs) < max_consecutive_failures config)%Z) :
  List.length (filter is_down_alert (snd (run config (Running s) envs))) = List.length envs.
Proof.
  revert s Henv Hcf Hlt. induction envs as [|e rest IH]; intros s Henv Hcf Hlt; [reflexivity|].
  destruct (Henv e (or_introl eq_refl)) as [Hh [Hp Hc]].
  cbn [List.length] in Hlt.
  cbn [run]. rewrite (cycle_alert_undelivered config s e Hh Hp Hurl Hc ltac:(lia)).
  match goal with
  | |- context [run config (Running ?s1) rest] =>
      specialize (IH s1); destruct (run config (Running s1) rest) as [d2 effs2] eqn:E
  end.
  cbn [snd fst] in *. cbn [filter is_down_alert app List.length].
  rewrite IH; [reflexivity | | cbn; lia | cbn [consecutive_failures]; lia].
  intros e' He'. cbn [last_notification_time]. apply Henv. right. exact He'.
Qed.

Definition failed_post (t : Z) : cycle_env :=
  {| env_health := "TIMEOUT"; env_time := t; env_post_ok := false; env_fetch := None;
     env_local := t |}.

Lemma undelivered_alerts_retried_witness :
  List.length (filter is_down_alert
    (snd (run {| monitor_ids := ["A"]; max_consecutive_failures := 5;
                 apps_script_url := "https://script.example/exec"; notification_cooldown := 0 |}
              (Running init_state) [failed_post 100; failed_post 160; failed_post 220])))
  = 3%nat.
Proof.
  apply (undelivered_alerts_retried
           {| monitor_ids := ["A"]; max_consecutive_failures := 5;
              apps_script_url := "https://script.example/exec"; notification_cooldown := 0 |}
           init_state [failed_post 100; failed_post 160; failed_post 220]).
  - discriminate.
  - intros e He. repeat (destruct He as [<-|He]; [cbn; split; [discriminate|]; split; [reflexivity | lia]|]).
    destruct He.
  - cbn. lia.
  - cbn. lia.
Defined.

Lemma cycle_healthy_was_up (config : Config) (s s1 : loop_state) (e : cycle_env)
  (effs : list effect)
  (Hh : env_health e = "OK") (Hc : cycle config s e = (Running s1, effs)) :
  server_was_up s1 = true.
Proof.
  revert Hc. unfold cycle, give_up_or_sleep. rewrite Hh, String.eqb_refl. cbn [negb].
  repeat split_scrutinee; intros Hc; try discriminate Hc;
    injection Hc as <- _; reflexivity.
Qed.

(** [main]: after a cycle whose health check passed and which did not stop
    the loop, the next failed health check posts a down alert at once (URL
    set), whatever the time since the previous alert: recovery re-arms the
    alert, the cooldown only spaces alerts within one outage. *)
Theorem recovery_rearms_alert (config : Config) (s s1 : loop_state) (e1 e2 : cycle_env)
  (effs1 : list effect)
  (Hok : env_health e1 = "OK") (Hc : cycle config s e1 = (Running s1, effs1))
  (Hfail : env_health e2 <> "OK") (Hurl : apps_script_url config <> "") :
  In (Post (env_time e2) DownAlert) (snd (cycle config s1 e2)).
Proof.
  pose proof (cycle_healthy_was_up config s s1 e1 effs1 Hok Hc) as Hup.
  apply String.eqb_neq in Hfail. apply String.eqb_neq in Hurl.
  unfold cycle, trigger_apps_script. rewrite Hfail, Hup, Hurl. cbn [negb orb].
  destruct (give_up_or_sleep _ _ _). cbn [snd]. left. reflexivity.
Qed.

Lemma recovery_rearms_alert_witness :
  In (Post 4000 DownAlert)
     (snd (cycle (cfg_of ["A"])
                 {| consecutive_failures := 1; last_notification_time := 3900;
                    server_was_up := true |}
                 (health_failure 4000))).
Proof.
  apply (recovery_rearms_alert (cfg_of ["A"])
           {| consecutive_failures := 1; last_notification_time := 3900; server_was_up := false |}
           _ (fetch_failure 3950) (health_failure 4000) [Sleep]).
  - reflexivity.
  - reflexivity.
  - discriminate.
  - discriminate.
Defined.
